(** * MAX17048 fuel-gauge driver: a shallow embedding of [max17048.c]

    The driver is a register shim over a two-wire bus.  Every C function of
    [src/max17048.c] is embedded below under its own name as a computation
    in a small state monad over a [world]: the gauge's register file, the
    outcomes the bus will report for the coming transfers, the journal of
    the transfers issued so far and the caller's memory (for the output
    pointers).

    Integer model: [uint8_t] and [uint16_t] are [Z] with the wrap-around
    written out ([u8], [u16]); [int] and [unsigned int] are taken to be
    32 bits wide ([uint]), so that [uint16_t] operands promote to [int]. *)

From Stdlib Require Import ZArith List Bool Lia.
From stdpp Require Import base gmap.
Import ListNotations.

Local Open Scope Z_scope.

(** ** Machine integers *)

Definition u8 (x : Z) : Z := x mod 256.
Definition u16 (x : Z) : Z := x mod 65536.
Definition uint (x : Z) : Z := x mod 4294967296.

Definition is_u8 (x : Z) : Prop := 0 <= x < 256.
Definition is_u16 (x : Z) : Prop := 0 <= x < 65536.

(** ** Register map and constants (the [#define]s of max17048.c) *)

Definition MAX_ADDR : Z := 0x36.

Definition VCELL : Z := 0x02.
Definition SOC : Z := 0x04.
Definition MODE : Z := 0x06.
Definition VERSION : Z := 0x08.
Definition HIBRT : Z := 0x0A.
Definition CONFIG : Z := 0x0C.
Definition VALRT : Z := 0x14.
Definition CRATE : Z := 0x16.
Definition VRESET_ID : Z := 0x18.
Definition STATUS : Z := 0x1A.
Definition TABLE : Z := 0x40.
Definition CMD : Z := 0xFE.

Definition VERSION_MSK : Z := 0xFFF0.
Definition PART_NUMBER : Z := 0x0010.

Definition BAT_LOW_POS : Z := 0.
Definition BAT_LOW_MSK : Z := Z.shiftl 0x001F BAT_LOW_POS.
Definition BAT_LOW_MIN : Z := 1.
Definition BAT_LOW_MAX : Z := 32.

Definition ALRT_BIT_POS : Z := 5.
Definition ALRT_BIT_MSK : Z := Z.shiftl 0x0001 ALRT_BIT_POS.

Definition ALSC_BIT_POS : Z := 6.
Definition ALSC_BIT_MSK : Z := Z.shiftl 0x0001 ALSC_BIT_POS.

Definition VALRT_MAX_POS : Z := 0.
Definition VALRT_MAX_MSK : Z := Z.shiftl 0x00FF VALRT_MAX_POS.
Definition VALRT_MIN_POS : Z := 8.
Definition VALRT_MIN_MSK : Z := Z.shiftl 0x00FF VALRT_MIN_POS.
Definition VALRT_RESOLUTION : Z := 20.

Definition VRESET_POS : Z := 9.
Definition VRESET_MSK : Z := Z.shiftl 0x007F VRESET_POS.
Definition VRESET_RESOLUTION : Z := 40.

Definition ENVR_BIT_POS : Z := 14.
Definition ENVR_BIT_MSK : Z := Z.shiftl 0x0001 ENVR_BIT_POS.

Definition ALRT_STATUS_POS : Z := 8.
Definition ALRT_STATUS_MSK : Z := Z.shiftl 0x003F ALRT_STATUS_POS.

(** [#define VCELL_TO_MV(vcell) ((vcell * 5U) >> 6U)]: the product is taken
    in [unsigned int]. *)
Definition VCELL_TO_MV (vcell : Z) : Z := Z.shiftr (uint (vcell * 5)) 6.

(** [#define SWAP16(x) ((uint16_t)(((x) << 8U) | ((x) >> 8U)))]: the operand
    is promoted to [int], the cast truncates back to 16 bits. *)
Definition SWAP16 (x : Z) : Z := u16 (Z.lor (Z.shiftl x 8) (Z.shiftr x 8)).

(** The alert flags of max17048.h ([max17048_alert_t] is [uint8_t]). *)
Definition MAX_ALERT_RESET : Z := 0x01.
Definition MAX_ALERT_OVERVOLTED : Z := 0x02.
Definition MAX_ALERT_UNDERVOLTED : Z := 0x04.
Definition MAX_ALERT_VOLTAGE_RESET : Z := 0x80.
Definition MAX_ALERT_SOC_LOW : Z := 0x10.
Definition MAX_ALERT_SOC_CHANGE : Z := 0x20.

(** The union of the six flags the header names. *)
Definition named_alerts : Z :=
  Z.lor MAX_ALERT_RESET
    (Z.lor MAX_ALERT_OVERVOLTED
       (Z.lor MAX_ALERT_UNDERVOLTED
          (Z.lor MAX_ALERT_VOLTAGE_RESET
             (Z.lor MAX_ALERT_SOC_LOW MAX_ALERT_SOC_CHANGE)))).

(** A mask is made of named flags only when it has no bit outside them. *)
Definition only_named_alerts (m : Z) : bool :=
  Z.land m (Z.lnot named_alerts) =? 0.

(** ** The world the driver runs in *)

(** One bus transfer, as the transport saw it: device address, register,
    (for a write) the 16-bit word handed to the transport, and whether the
    transfer completed. *)
Inductive xfer : Type :=
| Rd (addr reg : Z) (ok : bool)
| Wr (addr reg data : Z) (ok : bool).

(** The register of a transfer. *)
Definition xfer_reg (e : xfer) : Z :=
  match e with
  | Rd _ r _ => r
  | Wr _ r _ _ => r
  end.



Record world : Type := World {
  dev : gmap Z Z;        (* the gauge's registers, by address, as 16-bit values *)
  script : list bool;    (* outcome of each coming transfer; exhausted = completes *)
  journal : list xfer;   (* transfers issued so far, oldest first *)
  mem : gmap nat Z       (* caller memory behind the output pointers *)
}.

(** A pointer argument: [None] is [NULL]. *)
Definition ptr : Type := option nat.

(** The value of a device register (an absent entry reads as 0). *)
Definition reg_val (w : world) (reg : Z) : Z := default 0 (dev w !! reg).


(** The outcome the bus will report for the [n]-th coming transfer. *)
Definition outcome (n : nat) (w : world) : bool := nth n (script w) true.


(** ** The state monad of the driver *)

Definition M (A : Type) : Type := world -> A * world.

Definition ret {A} (a : A) : M A := fun w => (a, w).

Definition bind {A B} (c : M A) (k : A -> M B) : M B :=
  fun w => let (a, w') := c w in k a w'.

Notation "'let*' x ':=' c 'in' k" := (bind c (fun x => k))
  (at level 10, x pattern, c at level 100, k at level 200).

(** [*p = v] for a non-null [p]. *)
Definition store (l : nat) (v : Z) : M unit :=
  fun w => (tt, World (dev w) (script w) (journal w) (<[l := v]> (mem w))).

(** ** The bus transport (i2c.h) *)

(** Modelled from the spec: [i2c_master_read_u16] of i2c.h, which src/ only
    calls.  The spec's contract is "read(addr, reg) -> 16-bit value or
    failure" with big-endian data on the wire.  One gauge sits at
    [MAX_ADDR]; a transfer completes when it addresses the gauge and the
    bus reports success.  A completed read leaves the register's two bytes
    in wire order in the output buffer, which the host sees byte-swapped;
    a failed read leaves the buffer as it was.  The result pairs the
    status with the buffer's content. *)
Definition i2c_master_read_u16 (addr reg : Z) (buf : Z) : M (bool * Z) :=
  fun w =>
    let ok := (addr =? MAX_ADDR) && hd true (script w) in
    ((ok, if ok then SWAP16 (reg_val w reg) else buf),
     World (dev w) (tl (script w)) (journal w ++ [Rd addr reg ok]) (mem w)).

(** Modelled from the spec: [i2c_master_write_u16] of i2c.h, contract
    "write(addr, reg, value) -> success or failure".  A completed write
    stores the word, taken out of wire order, in the gauge's register; a
    failed write changes no register. *)
Definition i2c_master_write_u16 (addr reg : Z) (data : Z) : M bool :=
  fun w =>
    let ok := (addr =? MAX_ADDR) && hd true (script w) in
    (ok,
     World (if ok then <[reg := SWAP16 data]> (dev w) else dev w)
           (tl (script w)) (journal w ++ [Wr addr reg data ok]) (mem w)).

(** ** Register primitives *)

(** [read_reg(reg, out)]: [buf] is the content of [*out] on entry, the
    second component of the result its content on return. *)
Definition read_reg (reg : Z) (buf : Z) : M (bool * Z) :=
  let* (ok, out) := i2c_master_read_u16 MAX_ADDR reg buf in
  if negb ok then ret (false, out)
  else ret (true, SWAP16 out).

Definition write_reg (reg : Z) (data : Z) : M bool :=
  i2c_master_write_u16 MAX_ADDR reg (SWAP16 data).

(** The merge of line 79, [buf = (buf & ~mask) | (data & mask)]: the
    operands are promoted to [int], the assignment truncates to 16 bits. *)
Definition merge (buf data mask : Z) : Z :=
  u16 (Z.lor (Z.land buf (Z.lnot mask)) (Z.land data mask)).

(** [modify_reg(reg, data, mask)].  The local [buf] is read only after
    [read_reg] has filled it, so its initial content (0 here) never
    matters; the same holds for the locals of the getters below. *)
Definition modify_reg (reg data mask : Z) : M bool :=
  let* (ok, buf) := read_reg reg 0 in
  if negb ok then ret false
  else
    let buf := merge buf data mask in
    write_reg reg buf.

(** ** Public operations *)

Definition max17048_is_present : M bool :=
  let* (ok, data) := read_reg VERSION 0 in
  if negb ok then ret false
  else ret (Z.land data VERSION_MSK =? PART_NUMBER).

Definition max17048_get_vcell (mv : ptr) : M bool :=
  match mv with
  | None => ret false
  | Some l =>
      let* (ok, data) := read_reg VCELL 0 in
      if negb ok then ret false
      else
        let* _ := store l (u16 (VCELL_TO_MV data)) in
        ret true
  end.

Definition max17048_get_soc (percent : ptr) : M bool :=
  match percent with
  | None => ret false
  | Some l =>
      let* (ok, data) := read_reg SOC 0 in
      if negb ok then ret false
      else
        let* _ := store l (u8 (Z.shiftr data 8)) in
        ret true
  end.

Definition max17048_set_bat_low_soc (percent : Z) : M bool :=
  if (percent <? BAT_LOW_MIN) || (percent >? BAT_LOW_MAX) then ret false
  else
    let data :=
      u16 (Z.land (uint (BAT_LOW_MAX - percent mod BAT_LOW_MAX)) BAT_LOW_MSK) in
    modify_reg CONFIG data BAT_LOW_MSK.

(** The voltage setters divide and shift in [unsigned int]. *)
Definition max17048_set_undervolted_voltage (mv : Z) : M bool :=
  let data :=
    u16 (Z.land (uint (Z.shiftl (mv / VALRT_RESOLUTION) VALRT_MIN_POS)) VALRT_MIN_MSK) in
  modify_reg VALRT data VALRT_MIN_MSK.

Definition max17048_set_overvolted_voltage (mv : Z) : M bool :=
  let data :=
    u16 (Z.land (uint (Z.shiftl (mv / VALRT_RESOLUTION) VALRT_MAX_POS)) VALRT_MAX_MSK) in
  modify_reg VALRT data VALRT_MAX_MSK.

Definition max17048_set_reset_voltage (mv : Z) : M bool :=
  let data :=
    u16 (Z.land (uint (Z.shiftl (mv / VRESET_RESOLUTION) VRESET_POS)) VRESET_MSK) in
  modify_reg VRESET_ID data VRESET_MSK.

(** The enable setters shift the promoted [bool] (0 or 1) in [int]; the
    shift cannot overflow. *)
Definition max17048_set_soc_change_alert (enable : bool) : M bool :=
  let data :=
    u16 (Z.land (Z.shiftl (Z.b2z enable) ALSC_BIT_POS) ALSC_BIT_MSK) in
  modify_reg CONFIG data ALSC_BIT_MSK.

Definition max17048_set_voltage_reset_alert (enable : bool) : M bool :=
  let data :=
    u16 (Z.land (Z.shiftl (Z.b2z enable) ENVR_BIT_POS) ENVR_BIT_MSK) in
  modify_reg STATUS data ENVR_BIT_MSK.

Definition max17048_clear_alerts : M bool :=
  let ok := true in
  let* ok := (if ok then modify_reg STATUS 0 ALRT_STATUS_MSK else ret ok) in
  let* ok := (if ok then modify_reg CONFIG 0 ALRT_BIT_MSK else ret ok) in
  ret ok.

(** [max17048_get_alerts(alerts)]; [data0] is the indeterminate initial
    content of the local [data], which line 173 reads even when the read of
    STATUS did not fill it.  The two [ok] assignments are kept although the
    function ends in [return true]. *)
Definition max17048_get_alerts (alerts : ptr) (data0 : Z) : M bool :=
  match alerts with
  | None => ret false
  | Some l =>
      let ok := true in
      let data := data0 in
      let* (ok, data) := (if ok then read_reg STATUS data else ret (ok, data)) in
      let* ok := (if ok then max17048_clear_alerts else ret ok) in
      let* _ :=
        store l (u8 (Z.shiftr (Z.land data ALRT_STATUS_MSK) ALRT_STATUS_POS)) in
      ret true
  end.

(** ** A test bench *)

(** A gauge with the given registers, a bus that behaves as [s] says, an
    empty journal and an empty caller memory. *)
Definition bench (regs : list (Z * Z)) (s : list bool) : world :=
  World (list_to_map regs) s [] ∅.

Example is_present_0x0012 :
  fst (max17048_is_present (bench [(VERSION, 0x0012)] [])) = true.
Proof. reflexivity. Qed.

Example is_present_0x1234 :
  fst (max17048_is_present (bench [(VERSION, 0x1234)] [])) = false.
Proof. reflexivity. Qed.

Example get_soc_0x5A00 :
  mem (snd (max17048_get_soc (Some 0%nat) (bench [(SOC, 0x5A00)] []))) !! 0%nat
  = Some 90.
Proof. reflexivity. Qed.

Example get_vcell_0x0C80 :
  mem (snd (max17048_get_vcell (Some 0%nat) (bench [(VCELL, 0x0C80)] []))) !! 0%nat
  = Some 250.
Proof. reflexivity. Qed.

Example get_alerts_0x2A00 :
  let w' := snd (max17048_get_alerts (Some 0%nat) 0
                   (bench [(STATUS, 0x2A00); (CONFIG, 0x9734)] [])) in
  mem w' !! 0%nat = Some 0x2A
  /\ reg_val w' STATUS = 0 /\ reg_val w' CONFIG = 0x9714.
Proof. repeat split. Qed.

Example set_bat_low_soc_32 :
  reg_val (snd (max17048_set_bat_low_soc 32 (bench [(CONFIG, 0x971C)] [])))
          CONFIG
  = 0x9700.
Proof. reflexivity. Qed.

(** ** Machine-integer lemmas *)

Lemma u16_range x : is_u16 (u16 x).
Proof. unfold is_u16, u16. apply Z.mod_pos_bound. lia. Qed.

Lemma u8_range x : is_u8 (u8 x).
Proof. unfold is_u8, u8. apply Z.mod_pos_bound. lia. Qed.

Lemma u16_small x : is_u16 x -> u16 x = x.
Proof. unfold is_u16, u16. intros H. apply Z.mod_small. exact H. Qed.

Lemma u8_small x : is_u8 x -> u8 x = x.
Proof. unfold is_u8, u8. intros H. apply Z.mod_small. exact H. Qed.

Lemma u16_testbit x i : Z.testbit (u16 x) i = (i <? 16) && Z.testbit x i.
Proof.
  unfold u16. change 65536 with (2 ^ 16).
  destruct (Z.ltb_spec i 0) as [Hneg | Hpos].
  - rewrite !Z.testbit_neg_r by lia. now rewrite andb_false_r.
  - destruct (Z.ltb_spec i 16).
    + now rewrite Z.mod_pow2_bits_low by lia.
    + now rewrite Z.mod_pow2_bits_high by lia.
Qed.

Lemma uint_testbit x i : Z.testbit (uint x) i = (i <? 32) && Z.testbit x i.
Proof.
  unfold uint. change 4294967296 with (2 ^ 32).
  destruct (Z.ltb_spec i 0) as [Hneg | Hpos].
  - rewrite !Z.testbit_neg_r by lia. now rewrite andb_false_r.
  - destruct (Z.ltb_spec i 32).
    + now rewrite Z.mod_pow2_bits_low by lia.
    + now rewrite Z.mod_pow2_bits_high by lia.
Qed.

Lemma is_u16_testbit_high x i : is_u16 x -> 16 <= i -> Z.testbit x i = false.
Proof.
  intros Hx Hi. rewrite <- (u16_small x Hx), u16_testbit.
  destruct (Z.ltb_spec i 16); [lia | reflexivity].
Qed.

(** Two 16-bit values with the same sixteen low bits are equal. *)
Lemma u16_bits_inj x y :
  is_u16 x -> is_u16 y ->
  (forall i, 0 <= i < 16 -> Z.testbit x i = Z.testbit y i) -> x = y.
Proof.
  intros Hx Hy Hbits. apply Z.bits_inj'. intros i Hi.
  destruct (Z_lt_le_dec i 16) as [Hlt | Hge].
  - apply Hbits. lia.
  - now rewrite !is_u16_testbit_high.
Qed.

Lemma SWAP16_range x : is_u16 (SWAP16 x).
Proof. apply u16_range. Qed.

Lemma SWAP16_testbit x i :
  is_u16 x -> 0 <= i < 16 ->
  Z.testbit (SWAP16 x) i = Z.testbit x (if i <? 8 then i + 8 else i - 8).
Proof.
  intros Hx Hi. unfold SWAP16. rewrite u16_testbit, Z.lor_spec.
  rewrite Z.shiftl_spec, Z.shiftr_spec by lia.
  destruct (Z.ltb_spec i 16); [simpl | lia].
  destruct (Z.ltb_spec i 8).
  - rewrite Z.testbit_neg_r by lia. reflexivity.
  - rewrite (is_u16_testbit_high x (i + 8)) by (assumption || lia).
    now rewrite orb_false_r.
Qed.

(** The byte swap undoes itself on 16-bit values. *)
Lemma SWAP16_involutive x : is_u16 x -> SWAP16 (SWAP16 x) = x.
Proof.
  intros Hx. apply u16_bits_inj; [apply SWAP16_range | exact Hx |].
  intros i Hi. rewrite SWAP16_testbit by (apply SWAP16_range || exact Hi).
  destruct (Z.ltb_spec i 8).
  - rewrite SWAP16_testbit by (assumption || lia).
    destruct (Z.ltb_spec (i + 8) 8); [lia | f_equal; lia].
  - rewrite SWAP16_testbit by (assumption || lia).
    destruct (Z.ltb_spec (i - 8) 8); [f_equal; lia | lia].
Qed.

(** ** The masked merge of [modify_reg] *)

Lemma merge_range buf data mask : is_u16 (merge buf data mask).
Proof. apply u16_range. Qed.

(** Bit by bit, the merge takes [data] under the mask and [buf] elsewhere,
    within the sixteen bits the assignment keeps. *)
Lemma merge_testbit_any buf data mask i :
  Z.testbit (merge buf data mask) i
  = (i <? 16) && (if Z.testbit mask i then Z.testbit data i else Z.testbit buf i).
Proof.
  destruct (Z.ltb_spec i 0) as [Hneg | Hpos].
  - rewrite !Z.testbit_neg_r by lia. now rewrite andb_false_r.
  - unfold merge.
    rewrite u16_testbit, Z.lor_spec, !Z.land_spec, Z.lnot_spec by lia.
    f_equal. destruct (Z.testbit mask i); simpl.
    + now rewrite andb_false_r, andb_true_r.
    + now rewrite andb_false_r, andb_true_r, orb_false_r.
Qed.

Lemma merge_testbit buf data mask i :
  0 <= i < 16 ->
  Z.testbit (merge buf data mask) i
  = if Z.testbit mask i then Z.testbit data i else Z.testbit buf i.
Proof.
  intros Hi. rewrite merge_testbit_any.
  destruct (Z.ltb_spec i 16); [reflexivity | lia].
Qed.

(** On 16-bit operands the truncation of the assignment loses nothing. *)
Lemma merge_exact buf data mask :
  is_u16 buf -> is_u16 data ->
  merge buf data mask = Z.lor (Z.land buf (Z.lnot mask)) (Z.land data mask).
Proof.
  intros Hb Hd. apply Z.bits_inj'. intros i Hi.
  unfold merge. rewrite u16_testbit.
  destruct (Z.ltb_spec i 16); [reflexivity |].
  rewrite Z.lor_spec, !Z.land_spec.
  rewrite (is_u16_testbit_high buf), (is_u16_testbit_high data) by assumption.
  reflexivity.
Qed.

Lemma merge_idempotent buf data mask :
  merge (merge buf data mask) data mask = merge buf data mask.
Proof.
  apply u16_bits_inj; try apply merge_range.
  intros i Hi. rewrite !merge_testbit by exact Hi.
  now destruct (Z.testbit mask i).
Qed.

(** ** Running the register primitives *)

Lemma outcome_0 w : outcome 0 w = hd true (script w).
Proof. unfold outcome. now destruct (script w). Qed.

Lemma outcome_1 w : outcome 1 w = hd true (tl (script w)).
Proof. unfold outcome. now destruct (script w) as [| ? [| ? ?]]. Qed.

Lemma outcome_tl n d s j m :
  outcome n (World d (tl s) j m) = outcome (S n) (World d s j m).
Proof. unfold outcome. simpl. now destruct s, n. Qed.

Lemma reg_val_insert d s j m reg v r :
  reg_val (World (<[reg := v]> d) s j m) r
  = if decide (reg = r) then v else reg_val (World d s j m) r.
Proof.
  unfold reg_val. simpl. rewrite lookup_insert.
  now destruct (decide (reg = r)).
Qed.

(** [read_reg] issues one read; when it completes, the caller gets the
    register's value back in host order. *)
Lemma read_reg_run reg buf w :
  read_reg reg buf w
  = ((outcome 0 w,
      if outcome 0 w then SWAP16 (SWAP16 (reg_val w reg)) else buf),
     World (dev w) (tl (script w))
           (journal w ++ [Rd MAX_ADDR reg (outcome 0 w)]) (mem w)).
Proof.
  rewrite outcome_0. unfold read_reg, bind, i2c_master_read_u16, ret.
  rewrite Z.eqb_refl. simpl. now destruct (hd true (script w)).
Qed.

Lemma write_reg_run reg data w :
  write_reg reg data w
  = (outcome 0 w,
     World (if outcome 0 w then <[reg := SWAP16 (SWAP16 data)]> (dev w)
            else dev w)
           (tl (script w))
           (journal w ++ [Wr MAX_ADDR reg (SWAP16 data) (outcome 0 w)]) (mem w)).
Proof.
  rewrite outcome_0. unfold write_reg, i2c_master_write_u16.
  rewrite Z.eqb_refl. reflexivity.
Qed.

(** [modify_reg] whose read fails: one failed read, nothing written. *)
Lemma modify_reg_read_fails reg data mask w :
  outcome 0 w = false ->
  modify_reg reg data mask w
  = (false,
     World (dev w) (tl (script w)) (journal w ++ [Rd MAX_ADDR reg false]) (mem w)).
Proof.
  intros H0. unfold modify_reg, bind. rewrite read_reg_run, H0. reflexivity.
Qed.

(** [modify_reg] whose read completes: the merged word goes out in a write,
    and the register takes it when that write completes. *)
Lemma modify_reg_read_ok reg data mask w :
  is_u16 (reg_val w reg) ->
  outcome 0 w = true ->
  let new := merge (reg_val w reg) data mask in
  modify_reg reg data mask w
  = (outcome 1 w,
     World (if outcome 1 w then <[reg := new]> (dev w) else dev w)
           (tl (tl (script w)))
           (journal w ++ [Rd MAX_ADDR reg true;
                          Wr MAX_ADDR reg (SWAP16 new) (outcome 1 w)])
           (mem w)).
Proof.
  intros Hreg H0 new. unfold modify_reg, bind.
  rewrite read_reg_run, H0. cbn [negb].
  rewrite write_reg_run, outcome_0. simpl.
  rewrite <- outcome_1, (SWAP16_involutive (reg_val w reg)) by exact Hreg.
  fold new. rewrite (SWAP16_involutive new) by apply merge_range.
  now rewrite <- app_assoc.
Qed.

(** Both transfers complete: the register holds the merged word. *)
Lemma modify_reg_ok reg data mask w :
  is_u16 (reg_val w reg) ->
  outcome 0 w = true -> outcome 1 w = true ->
  modify_reg reg data mask w
  = (true,
     World (<[reg := merge (reg_val w reg) data mask]> (dev w))
           (tl (tl (script w)))
           (journal w ++ [Rd MAX_ADDR reg true;
                          Wr MAX_ADDR reg
                             (SWAP16 (merge (reg_val w reg) data mask)) true])
           (mem w)).
Proof.
  intros Hreg H0 H1. rewrite modify_reg_read_ok by assumption.
  now rewrite H1.
Qed.

(** No run of [modify_reg] touches a register other than its own, and the
    register file stays 16 bits wide. *)
Lemma modify_reg_other reg data mask w r :
  reg <> r ->
  reg_val (snd (modify_reg reg data mask w)) r = reg_val w r.
Proof.
  intros Hne. unfold modify_reg, bind. rewrite read_reg_run.
  destruct (outcome 0 w); cbn [negb]; [| reflexivity].
  rewrite write_reg_run. cbn [snd dev].
  match goal with |- context [if ?b then _ else _] => destruct b end.
  - rewrite reg_val_insert. now destruct (decide (reg = r)).
  - reflexivity.
Qed.


(** ** Bit fields *)

(** A property of bit positions 0..15 can be checked position by position. *)
Lemma bits16_ind (P : Z -> Prop) :
  P 0 -> P 1 -> P 2 -> P 3 -> P 4 -> P 5 -> P 6 -> P 7 ->
  P 8 -> P 9 -> P 10 -> P 11 -> P 12 -> P 13 -> P 14 -> P 15 ->
  forall i, 0 <= i < 16 -> P i.
Proof.
  intros ? ? ? ? ? ? ? ? ? ? ? ? ? ? ? ? i Hi.
  assert (i = 0 \/ i = 1 \/ i = 2 \/ i = 3 \/ i = 4 \/ i = 5 \/ i = 6 \/ i = 7
          \/ i = 8 \/ i = 9 \/ i = 10 \/ i = 11 \/ i = 12 \/ i = 13 \/ i = 14
          \/ i = 15) as Hcase by lia.
  repeat (destruct Hcase as [-> | Hcase]; [assumption |]).
  now subst i.
Qed.

(** Is the term a closed numeral? *)
Ltac is_num c :=
  lazymatch c with
  | Z0 => idtac
  | Zpos ?p => is_ground p
  | Zneg ?p => is_ground p
  end.

Ltac fold_num t :=
  let v := eval vm_compute in t in change t with v.

(** Evaluates the arithmetic and the bit tests on closed numerals. *)
Ltac eval_nums :=
  repeat match goal with
  | |- context [Z.testbit ?c ?i] => is_num c; is_num i; fold_num (Z.testbit c i)
  | |- context [?a + ?b] => is_num a; is_num b; fold_num (a + b)
  | |- context [?a - ?b] => is_num a; is_num b; fold_num (a - b)
  | |- context [?a <? ?b] => is_num a; is_num b; fold_num (a <? b)
  end.

(** Pushes a bit test at a fixed position through the bit operations. *)
Ltac bit_case :=
  repeat
    (eval_nums;
     first [ rewrite u16_testbit | rewrite uint_testbit
           | rewrite merge_testbit_any
           | rewrite Z.lor_spec | rewrite Z.land_spec | rewrite Z.ldiff_spec
           | rewrite Z.shiftl_spec by lia | rewrite Z.shiftr_spec by lia
           | rewrite Z.lnot_spec by lia
           | rewrite Z.testbit_neg_r by lia
           | progress cbn [andb orb negb]
           | rewrite andb_true_r | rewrite andb_false_r
           | rewrite orb_false_r | rewrite orb_true_r ]);
  try reflexivity.

(** Settles an equation between the bits 0..15 of two values. *)
Ltac bits16 :=
  let i := fresh "i" in
  let Hi := fresh "Hi" in
  intros i Hi; revert i Hi; apply bits16_ind; bit_case.

(** A value below [2^n] for some [n <= 16] is a 16-bit value. *)
Lemma is_u16_below x n : 0 <= x < n -> n <= 65536 -> is_u16 x.
Proof. unfold is_u16. lia. Qed.

Lemma shiftr_8_range x : is_u16 x -> 0 <= Z.shiftr x 8 < 256.
Proof.
  unfold is_u16. intros Hx. rewrite Z.shiftr_div_pow2 by lia.
  change (2 ^ 8) with 256. split.
  - apply Z.div_pos; lia.
  - apply Z.div_lt_upper_bound; lia.
Qed.

Lemma land_ones_range x n : 0 <= n -> 0 <= Z.land x (Z.ones n) < 2 ^ n.
Proof.
  intros Hn. rewrite Z.land_ones by exact Hn.
  apply Z.mod_pos_bound. apply Z.pow_pos_nonneg; lia.
Qed.

(** ** Running the getters *)

Lemma max17048_is_present_run w :
  is_u16 (reg_val w VERSION) ->
  fst (max17048_is_present w)
  = outcome 0 w && (Z.land (reg_val w VERSION) VERSION_MSK =? PART_NUMBER).
Proof.
  intros Hv. unfold max17048_is_present, bind. rewrite read_reg_run.
  destruct (outcome 0 w); cbn [negb fst andb ret]; [| reflexivity].
  now rewrite SWAP16_involutive.
Qed.

Lemma max17048_get_vcell_run l w :
  is_u16 (reg_val w VCELL) ->
  max17048_get_vcell (Some l) w
  = (outcome 0 w,
     World (dev w) (tl (script w))
           (journal w ++ [Rd MAX_ADDR VCELL (outcome 0 w)])
           (if outcome 0 w
            then <[l := u16 (VCELL_TO_MV (reg_val w VCELL))]> (mem w)
            else mem w)).
Proof.
  intros Hv. unfold max17048_get_vcell, bind. rewrite read_reg_run.
  destruct (outcome 0 w); cbn [negb ret]; [| reflexivity].
  unfold store. cbn [dev script journal mem].
  now rewrite SWAP16_involutive.
Qed.

Lemma max17048_get_soc_run l w :
  is_u16 (reg_val w SOC) ->
  max17048_get_soc (Some l) w
  = (outcome 0 w,
     World (dev w) (tl (script w))
           (journal w ++ [Rd MAX_ADDR SOC (outcome 0 w)])
           (if outcome 0 w
            then <[l := u8 (Z.shiftr (reg_val w SOC) 8)]> (mem w)
            else mem w)).
Proof.
  intros Hv. unfold max17048_get_soc, bind. rewrite read_reg_run.
  destruct (outcome 0 w); cbn [negb ret]; [| reflexivity].
  unfold store. cbn [dev script journal mem].
  now rewrite SWAP16_involutive.
Qed.

(** ** Presence check *)

(** The masked comparison of the presence check is a comparison of the
    upper twelve bits with the part number's. *)
Lemma version_mask_upper12 v :
  is_u16 v -> (Z.land v VERSION_MSK = PART_NUMBER <-> Z.shiftr v 4 = 1).
Proof.
  intros Hv. unfold VERSION_MSK, PART_NUMBER.
  assert (Z.land v 0xFFF0 = Z.shiftl (Z.shiftr v 4) 4) as ->.
  { apply u16_bits_inj.
    - apply (is_u16_below _ (2 ^ 16)); [| reflexivity].
      change 0xFFF0 with (Z.land 0xFFF0 (Z.ones 16)).
      rewrite Z.land_assoc. apply land_ones_range. lia.
    - rewrite Z.shiftl_mul_pow2, Z.shiftr_div_pow2 by lia.
      change (2 ^ 4) with 16. unfold is_u16 in *.
      Z.div_mod_to_equations. lia.
    - bits16. }
  rewrite Z.shiftl_mul_pow2 by lia. change (2 ^ 4) with 16. lia.
Qed.

(** C5: the presence check answers true exactly when the version register,
    read successfully, satisfies [(v & 0xFFF0) == 0x0010] (its upper twelve
    bits are the part number's), and answers false when the transport read
    of the version register fails. *)
Theorem max17048_is_present_spec w v :
  is_u16 v -> reg_val w VERSION = v ->
  (outcome 0 w = true ->
   (fst (max17048_is_present w) = true <-> Z.land v 0xFFF0 = 0x0010))
  /\ (outcome 0 w = false -> fst (max17048_is_present w) = false)
  /\ (Z.land v 0xFFF0 = 0x0010 <-> Z.shiftr v 4 = 1).
Proof.
  intros Hv Hreg. subst v. rewrite max17048_is_present_run by exact Hv.
  split; [| split].
  - intros Hok. rewrite Hok. cbn [andb]. apply Z.eqb_eq.
  - intros Hfail. now rewrite Hfail.
  - apply version_mask_upper12, Hv.
Qed.

Lemma max17048_is_present_spec_witness :
  let w := bench [(VERSION, 0x0012)] [] in
  is_u16 0x0012 /\ reg_val w VERSION = 0x0012
  /\ outcome 0 w = true
  /\ (fst (max17048_is_present w) = true <-> Z.land 0x0012 0xFFF0 = 0x0010).
Proof.
  intros w.
  assert (is_u16 0x0012) as Hv by (unfold is_u16; lia).
  assert (reg_val w VERSION = 0x0012) as Hreg by reflexivity.
  assert (outcome 0 w = true) as Hok by reflexivity.
  split; [exact Hv | split; [exact Hreg | split; [exact Hok |]]].
  destruct (max17048_is_present_spec w 0x0012 Hv Hreg) as [Hpresent _].
  exact (Hpresent Hok).
Defined.

(** ** Null output pointers *)

(** C10: each getter that takes an output pointer (cell voltage, state of
    charge, get-and-clear alerts) returns failure on a null pointer and
    leaves the world as it found it: no transfer is added to the journal,
    nothing is consumed from the bus and no memory cell is written. *)
Theorem getters_reject_null w data0 :
  max17048_get_vcell None w = (false, w)
  /\ max17048_get_soc None w = (false, w)
  /\ max17048_get_alerts None data0 w = (false, w).
Proof. repeat split. Qed.

(** ** Cell voltage *)

Lemma VCELL_TO_MV_div raw : is_u16 raw -> VCELL_TO_MV raw = raw * 5 / 64.
Proof.
  unfold is_u16, VCELL_TO_MV, uint. intros Hr.
  rewrite Z.mod_small by lia. now rewrite Z.shiftr_div_pow2 by lia.
Qed.

(** The decoded voltage fits the 16-bit result type: the cast of line 100
    loses nothing. *)
Lemma VCELL_TO_MV_range raw : is_u16 raw -> 0 <= VCELL_TO_MV raw <= 5119.
Proof.
  intros Hr. rewrite VCELL_TO_MV_div by exact Hr. unfold is_u16 in Hr.
  Z.div_mod_to_equations. lia.
Qed.

(** C8: the decoding [(raw * 5) >> 6] of the VCELL register is monotone on
    16-bit raw values, both as the macro computes it and as
    [max17048_get_vcell] stores it after the cast to the 16-bit voltage
    type. *)
Theorem VCELL_TO_MV_monotone r1 r2 :
  is_u16 r1 -> is_u16 r2 -> r1 <= r2 ->
  VCELL_TO_MV r1 <= VCELL_TO_MV r2
  /\ u16 (VCELL_TO_MV r1) <= u16 (VCELL_TO_MV r2).
Proof.
  intros H1 H2 Hle.
  assert (VCELL_TO_MV r1 <= VCELL_TO_MV r2) as Hmono.
  { rewrite !VCELL_TO_MV_div by assumption. apply Z.div_le_mono; lia. }
  split; [exact Hmono |].
  pose proof (VCELL_TO_MV_range r1 H1). pose proof (VCELL_TO_MV_range r2 H2).
  rewrite !u16_small by (unfold is_u16; lia). exact Hmono.
Qed.

Lemma VCELL_TO_MV_monotone_witness :
  is_u16 3200 /\ is_u16 3213 /\ 3200 <= 3213
  /\ VCELL_TO_MV 3200 <= VCELL_TO_MV 3213
  /\ u16 (VCELL_TO_MV 3200) <= u16 (VCELL_TO_MV 3213).
Proof.
  assert (is_u16 3200) as H1 by (unfold is_u16; lia).
  assert (is_u16 3213) as H2 by (unfold is_u16; lia).
  assert (3200 <= 3213) as Hle by lia.
  split; [exact H1 | split; [exact H2 | split; [exact Hle |]]].
  exact (VCELL_TO_MV_monotone 3200 3213 H1 H2 Hle).
Defined.

(** ** State of charge *)

(** C3, as stated, fails: a SOC register of 0xFF00 is delivered as 255
    percent, which is above 100. *)
Lemma max17048_get_soc_above_100 :
  ~ (forall w l raw p,
        is_u16 raw -> reg_val w SOC = raw -> outcome 0 w = true ->
        mem (snd (max17048_get_soc (Some l) w)) !! l = Some p ->
        p = Z.shiftr raw 8 /\ 0 <= p <= 100).
Proof.
  intros Hclaim.
  destruct (Hclaim (bench [(SOC, 0xFF00)] []) 0%nat 0xFF00 255) as [_ Hrange].
  - unfold is_u16. lia.
  - reflexivity.
  - reflexivity.
  - reflexivity.
  - lia.
Qed.

(** C3, amended: for every 16-bit SOC register value, a state-of-charge
    read that completes returns success and stores the upper byte of the
    register as the whole-percent value; that value lies between 0 and 255,
    and is at most 100 exactly when the register is at most 0x64FF. *)
Theorem max17048_get_soc_upper_byte w l raw :
  is_u16 raw -> reg_val w SOC = raw -> outcome 0 w = true ->
  exists w',
    max17048_get_soc (Some l) w = (true, w')
    /\ mem w' !! l = Some (Z.shiftr raw 8)
    /\ Z.shiftr raw 8 = raw / 256
    /\ 0 <= Z.shiftr raw 8 <= 255
    /\ (Z.shiftr raw 8 <= 100 <-> raw <= 0x64FF).
Proof.
  intros Hraw Hreg Hok. subst raw.
  rewrite max17048_get_soc_run, Hok by exact Hraw.
  eexists. split; [reflexivity |]. cbn [mem].
  pose proof (shiftr_8_range _ Hraw) as Hbyte.
  rewrite u8_small by exact Hbyte.
  split; [apply lookup_insert_eq |].
  rewrite Z.shiftr_div_pow2 in * by lia. change (2 ^ 8) with 256 in *.
  split; [reflexivity |]. split; [lia |].
  unfold is_u16 in Hraw. Z.div_mod_to_equations. lia.
Qed.

Lemma max17048_get_soc_upper_byte_witness :
  let w := bench [(SOC, 0x5A00)] [] in
  is_u16 0x5A00 /\ reg_val w SOC = 0x5A00 /\ outcome 0 w = true
  /\ exists w',
      max17048_get_soc (Some 0%nat) w = (true, w')
      /\ mem w' !! 0%nat = Some (Z.shiftr 0x5A00 8)
      /\ Z.shiftr 0x5A00 8 = 0x5A00 / 256
      /\ 0 <= Z.shiftr 0x5A00 8 <= 255
      /\ (Z.shiftr 0x5A00 8 <= 100 <-> 0x5A00 <= 0x64FF).
Proof.
  intros w.
  assert (is_u16 0x5A00) as Hraw by (unfold is_u16; lia).
  assert (reg_val w SOC = 0x5A00) as Hreg by reflexivity.
  assert (outcome 0 w = true) as Hok by reflexivity.
  split; [exact Hraw | split; [exact Hreg | split; [exact Hok |]]].
  exact (max17048_get_soc_upper_byte w 0%nat 0x5A00 Hraw Hreg Hok).
Defined.

(** ** Masked updates *)

Lemma land_u16_r x m : is_u16 m -> is_u16 (Z.land x m).
Proof.
  intros Hm. rewrite <- (u16_small m Hm). unfold u16 at 1.
  change 65536 with (2 ^ 16). rewrite <- Z.land_ones, Z.land_assoc by lia.
  rewrite Z.land_ones by lia. apply u16_range.
Qed.

(** A second [modify_reg] with the same value and mask, whatever the bus
    does to it, leaves the register file as the first one made it. *)
Lemma modify_reg_again reg data mask w old :
  dev w !! reg = Some (merge old data mask) ->
  dev (snd (modify_reg reg data mask w)) = dev w.
Proof.
  intros Hlook.
  assert (reg_val w reg = merge old data mask) as Hreg
    by (unfold reg_val; now rewrite Hlook).
  destruct (outcome 0 w) eqn:H0.
  - rewrite modify_reg_read_ok; [| rewrite Hreg; apply merge_range | exact H0].
    cbn [snd dev]. destruct (outcome 1 w); [| reflexivity].
    rewrite Hreg, merge_idempotent. now apply insert_id.
  - now rewrite modify_reg_read_fails.
Qed.

(** C6: a [modify_reg] whose two transfers complete leaves in the register
    exactly [(old & ~mask) | (new & mask)]; every bit outside the mask is
    the bit of the register before the update, no other register changes,
    and applying the same masked value again leaves the register file as
    the first application made it. *)
Theorem modify_reg_masked_update w reg data mask :
  is_u16 (reg_val w reg) -> is_u16 data -> is_u16 mask ->
  outcome 0 w = true -> outcome 1 w = true ->
  exists w',
    modify_reg reg data mask w = (true, w')
    /\ reg_val w' reg
       = Z.lor (Z.land (reg_val w reg) (Z.lnot mask)) (Z.land data mask)
    /\ (forall i, 0 <= i -> Z.testbit mask i = false ->
        Z.testbit (reg_val w' reg) i = Z.testbit (reg_val w reg) i)
    /\ (forall r, r <> reg -> reg_val w' r = reg_val w r)
    /\ dev (snd (modify_reg reg data mask w')) = dev w'.
Proof.
  intros Hold Hdata Hmask H0 H1.
  rewrite modify_reg_ok by assumption. eexists. split; [reflexivity |].
  assert (forall d s j m, reg_val (World (<[reg := merge (reg_val w reg) data mask]> d) s j m) reg
          = merge (reg_val w reg) data mask) as Hnew.
  { intros. rewrite reg_val_insert. now destruct (decide (reg = reg)). }
  rewrite Hnew. split; [| split; [| split]].
  - now apply merge_exact.
  - intros i Hi Hbit. rewrite merge_testbit_any, Hbit.
    destruct (Z.ltb_spec i 16); [reflexivity |].
    now rewrite is_u16_testbit_high.
  - intros r Hne. rewrite reg_val_insert.
    destruct (decide (reg = r)); [congruence | reflexivity].
  - apply (modify_reg_again _ _ _ _ (reg_val w reg)). cbn [dev].
    apply lookup_insert_eq.
Qed.

Lemma modify_reg_masked_update_witness :
  let w := bench [(VALRT, 0x12FF)] [] in
  is_u16 (reg_val w VALRT) /\ is_u16 0xAB00 /\ is_u16 0xFF00
  /\ outcome 0 w = true /\ outcome 1 w = true
  /\ exists w',
      modify_reg VALRT 0xAB00 0xFF00 w = (true, w')
      /\ reg_val w' VALRT
         = Z.lor (Z.land (reg_val w VALRT) (Z.lnot 0xFF00)) (Z.land 0xAB00 0xFF00)
      /\ (forall i, 0 <= i -> Z.testbit 0xFF00 i = false ->
          Z.testbit (reg_val w' VALRT) i = Z.testbit (reg_val w VALRT) i)
      /\ (forall r, r <> VALRT -> reg_val w' r = reg_val w r)
      /\ dev (snd (modify_reg VALRT 0xAB00 0xFF00 w')) = dev w'.
Proof.
  intros w.
  assert (is_u16 (reg_val w VALRT)) as Hold by (vm_compute; split; congruence).
  assert (is_u16 0xAB00) as Hdata by (unfold is_u16; lia).
  assert (is_u16 0xFF00) as Hmask by (unfold is_u16; lia).
  assert (outcome 0 w = true) as H0 by reflexivity.
  assert (outcome 1 w = true) as H1 by reflexivity.
  split; [exact Hold | split; [exact Hdata | split; [exact Hmask |]]].
  split; [exact H0 | split; [exact H1 |]].
  exact (modify_reg_masked_update w VALRT 0xAB00 0xFF00 Hold Hdata Hmask H0 H1).
Defined.

(** ** Alert thresholds *)

(** The field [max17048_set_undervolted_voltage] builds and its merge into
    a 16-bit VALRT value. *)
Lemma valrt_min_merge old q :
  is_u16 old ->
  let data := u16 (Z.land (uint (Z.shiftl q VALRT_MIN_POS)) VALRT_MIN_MSK) in
  let new := merge old data VALRT_MIN_MSK in
  Z.shiftr new 8 = Z.land q 0xFF /\ Z.land new 0xFF = Z.land old 0xFF.
Proof.
  intros Hold data new. subst data new.
  change VALRT_MIN_POS with 8. change VALRT_MIN_MSK with 0xFF00. split.
  - apply u16_bits_inj.
    + apply (is_u16_below _ 256); [| lia]. apply shiftr_8_range, merge_range.
    + apply land_u16_r. unfold is_u16. lia.
    + bits16.
  - apply u16_bits_inj.
    + apply land_u16_r. unfold is_u16. lia.
    + apply land_u16_r. unfold is_u16. lia.
    + bits16.
Qed.

(** C9: for every 16-bit millivolt input, an under-voltage update whose two
    transfers complete leaves [(mv / 20) & 0xFF] in bits 8-15 of VALRT and
    leaves bits 0-7 of VALRT (the maximum-voltage field) and every other
    register as they were. *)
Theorem max17048_set_undervolted_voltage_spec w mv :
  is_u16 mv -> is_u16 (reg_val w VALRT) ->
  outcome 0 w = true -> outcome 1 w = true ->
  exists w',
    max17048_set_undervolted_voltage mv w = (true, w')
    /\ Z.shiftr (reg_val w' VALRT) 8 = Z.land (mv / 20) 0xFF
    /\ Z.land (reg_val w' VALRT) 0xFF = Z.land (reg_val w VALRT) 0xFF
    /\ (forall r, r <> VALRT -> reg_val w' r = reg_val w r).
Proof.
  intros Hmv Hold H0 H1. unfold max17048_set_undervolted_voltage.
  rewrite modify_reg_ok by assumption. eexists. split; [reflexivity |].
  rewrite reg_val_insert. destruct (decide (VALRT = VALRT)); [| congruence].
  destruct (valrt_min_merge (reg_val w VALRT) (mv / VALRT_RESOLUTION) Hold)
    as [Hhi Hlo].
  split; [exact Hhi | split; [exact Hlo |]].
  intros r Hne. rewrite reg_val_insert.
  destruct (decide (VALRT = r)); [congruence | reflexivity].
Qed.

Lemma max17048_set_undervolted_voltage_spec_witness :
  let w := bench [(VALRT, 0x12D7)] [] in
  is_u16 3000 /\ is_u16 (reg_val w VALRT)
  /\ outcome 0 w = true /\ outcome 1 w = true
  /\ exists w',
      max17048_set_undervolted_voltage 3000 w = (true, w')
      /\ Z.shiftr (reg_val w' VALRT) 8 = Z.land (3000 / 20) 0xFF
      /\ Z.land (reg_val w' VALRT) 0xFF = Z.land (reg_val w VALRT) 0xFF
      /\ (forall r, r <> VALRT -> reg_val w' r = reg_val w r).
Proof.
  intros w.
  assert (is_u16 3000) as Hmv by (unfold is_u16; lia).
  assert (is_u16 (reg_val w VALRT)) as Hold by (vm_compute; split; congruence).
  assert (outcome 0 w = true) as H0 by reflexivity.
  assert (outcome 1 w = true) as H1 by reflexivity.
  split; [exact Hmv | split; [exact Hold | split; [exact H0 | split; [exact H1 |]]]].
  exact (max17048_set_undervolted_voltage_spec w 3000 Hmv Hold H0 H1).
Defined.

(** The field [max17048_set_bat_low_soc] builds for a valid percentage. *)
Lemma bat_low_data p :
  1 <= p <= 32 ->
  u16 (Z.land (uint (BAT_LOW_MAX - p mod BAT_LOW_MAX)) BAT_LOW_MSK)
  = if p =? 32 then 0 else 32 - p.
Proof.
  intros Hp. change BAT_LOW_MAX with 32. change BAT_LOW_MSK with (Z.ones 5).
  destruct (Z.eqb_spec p 32) as [-> | Hne]; [reflexivity |].
  rewrite (Z.mod_small p 32) by lia.
  unfold uint. rewrite (Z.mod_small (32 - p)) by lia.
  rewrite Z.land_ones by lia. change (2 ^ 5) with 32.
  rewrite (Z.mod_small (32 - p)) by lia.
  apply u16_small. unfold is_u16. lia.
Qed.

(** Its merge into a 16-bit CONFIG value. *)
Lemma bat_low_merge old d :
  is_u16 old -> 0 <= d < 32 ->
  let new := merge old d BAT_LOW_MSK in
  Z.land new 0x1F = d /\ Z.land new 0xFFE0 = Z.land old 0xFFE0.
Proof.
  intros Hold Hd new. subst new. change BAT_LOW_MSK with 0x1F.
  assert (Z.land d 0x1F = d) as Hfield.
  { change 0x1F with (Z.ones 5). rewrite Z.land_ones by lia.
    apply Z.mod_small. change (2 ^ 5) with 32. lia. }
  split.
  - rewrite <- Hfield at 2. apply u16_bits_inj.
    + apply land_u16_r. unfold is_u16. lia.
    + apply land_u16_r. unfold is_u16. lia.
    + bits16.
  - apply u16_bits_inj.
    + apply land_u16_r. unfold is_u16. lia.
    + apply land_u16_r. unfold is_u16. lia.
    + bits16.
Qed.

(** C4: for a percentage [p] in 1..31 the low-battery update leaves
    [32 - p] in the 5-bit field of CONFIG, for [p = 32] it leaves 0 there
    (the other bits of CONFIG stay as they were); for an 8-bit [p] outside
    1..32 the operation returns failure and the world is untouched: no
    transfer enters the journal, so no register is read or written. *)
Theorem max17048_set_bat_low_soc_spec w p :
  is_u8 p -> is_u16 (reg_val w CONFIG) ->
  (1 <= p <= 32 -> outcome 0 w = true -> outcome 1 w = true ->
   exists w',
     max17048_set_bat_low_soc p w = (true, w')
     /\ (p <= 31 -> Z.land (reg_val w' CONFIG) 0x1F = 32 - p)
     /\ (p = 32 -> Z.land (reg_val w' CONFIG) 0x1F = 0)
     /\ Z.land (reg_val w' CONFIG) 0xFFE0 = Z.land (reg_val w CONFIG) 0xFFE0)
  /\ (~ (1 <= p <= 32) -> max17048_set_bat_low_soc p w = (false, w)).
Proof.
  intros Hp Hold. unfold max17048_set_bat_low_soc.
  change BAT_LOW_MIN with 1. change BAT_LOW_MAX with 32. split.
  - intros Hin H0 H1.
    destruct (Z.ltb_spec p 1); [lia |]. destruct (Z.gtb_spec p 32); [lia |].
    cbn [orb]. change 32 with BAT_LOW_MAX at 1 2.
    rewrite bat_low_data by exact Hin.
    rewrite modify_reg_ok by assumption. eexists. split; [reflexivity |].
    rewrite reg_val_insert. destruct (decide (CONFIG = CONFIG)); [| congruence].
    assert (0 <= (if p =? 32 then 0 else 32 - p) < 32) as Hd
      by (destruct (Z.eqb_spec p 32); lia).
    destruct (bat_low_merge (reg_val w CONFIG) _ Hold Hd) as [Hfield Hrest].
    rewrite Hfield. split; [| split; [| exact Hrest]].
    + intros Hle. destruct (Z.eqb_spec p 32); [lia | reflexivity].
    + intros ->. reflexivity.
  - intros Hout.
    destruct (Z.ltb_spec p 1); [reflexivity |].
    destruct (Z.gtb_spec p 32); [reflexivity | lia].
Qed.

Lemma max17048_set_bat_low_soc_spec_witness :
  let w := bench [(CONFIG, 0x971C)] [] in
  is_u8 15 /\ is_u16 (reg_val w CONFIG)
  /\ (exists w',
        max17048_set_bat_low_soc 15 w = (true, w')
        /\ Z.land (reg_val w' CONFIG) 0x1F = 32 - 15)
  /\ max17048_set_bat_low_soc 33 w = (false, w).
Proof.
  intros w.
  assert (is_u8 15) as Hp by (unfold is_u8; lia).
  assert (is_u8 33) as Hp' by (unfold is_u8; lia).
  assert (is_u16 (reg_val w CONFIG)) as Hold by (vm_compute; split; congruence).
  split; [exact Hp | split; [exact Hold | split]].
  - destruct (max17048_set_bat_low_soc_spec w 15 Hp Hold) as [Hin _].
    destruct (Hin ltac:(lia) eq_refl eq_refl) as (w' & Hrun & Hfield & _).
    exists w'. split; [exact Hrun | apply Hfield; lia].
  - destruct (max17048_set_bat_low_soc_spec w 33 Hp' Hold) as [_ Hout].
    apply Hout. lia.
Defined.

(** ** Clearing the alerts *)

Lemma nth_tl {A} n (s : list A) d : nth n (tl s) d = nth (S n) s d.
Proof. destruct s; [now destruct n | reflexivity]. Qed.

(** What [modify_reg] leaves of the bus script after two transfers. *)
Lemma outcome_after_two n d s j m w :
  s = tl (tl (script w)) -> outcome n (World d s j m) = outcome (S (S n)) w.
Proof. intros ->. unfold outcome. cbn [script]. now rewrite !nth_tl. Qed.

(** The two guarded steps of [max17048_clear_alerts]: the CONFIG step runs
    only after a STATUS step that succeeded. *)
Lemma max17048_clear_alerts_run w :
  max17048_clear_alerts w
  = (if fst (modify_reg STATUS 0 ALRT_STATUS_MSK w)
     then modify_reg CONFIG 0 ALRT_BIT_MSK
            (snd (modify_reg STATUS 0 ALRT_STATUS_MSK w))
     else (false, snd (modify_reg STATUS 0 ALRT_STATUS_MSK w))).
Proof.
  unfold max17048_clear_alerts, bind.
  destruct (modify_reg STATUS 0 ALRT_STATUS_MSK w) as [[|] w1]; cbn [fst snd].
  - now destruct (modify_reg CONFIG 0 ALRT_BIT_MSK w1).
  - reflexivity.
Qed.

(** Merging zero under the alert masks clears the masked bits. *)
Lemma clear_status_merge old :
  is_u16 old -> merge old 0 ALRT_STATUS_MSK = Z.land old 0xC0FF.
Proof.
  intros Hold. change ALRT_STATUS_MSK with 0x3F00. apply u16_bits_inj.
  - apply merge_range.
  - apply land_u16_r. unfold is_u16. lia.
  - bits16.
Qed.

Lemma clear_config_merge old :
  is_u16 old -> merge old 0 ALRT_BIT_MSK = Z.land old 0xFFDF.
Proof.
  intros Hold. change ALRT_BIT_MSK with 0x0020. apply u16_bits_inj.
  - apply merge_range.
  - apply land_u16_r. unfold is_u16. lia.
  - bits16.
Qed.

(** The STATUS step of a clear, by the outcome of its two transfers. *)
Lemma clear_status_step w :
  is_u16 (reg_val w STATUS) ->
  fst (modify_reg STATUS 0 ALRT_STATUS_MSK w) = outcome 0 w && outcome 1 w
  /\ reg_val (snd (modify_reg STATUS 0 ALRT_STATUS_MSK w)) CONFIG
     = reg_val w CONFIG
  /\ exists evs,
      journal (snd (modify_reg STATUS 0 ALRT_STATUS_MSK w)) = journal w ++ evs
      /\ Forall (fun e => xfer_reg e = STATUS) evs.
Proof.
  intros Hst. split; [| split].
  - destruct (outcome 0 w) eqn:H0.
    + now rewrite modify_reg_read_ok.
    + now rewrite modify_reg_read_fails.
  - apply modify_reg_other. discriminate.
  - destruct (outcome 0 w) eqn:H0.
    + rewrite modify_reg_read_ok by assumption. cbn [snd journal].
      eexists. split; [reflexivity |]. repeat constructor.
    + rewrite modify_reg_read_fails by assumption. cbn [snd journal].
      eexists. split; [reflexivity |]. repeat constructor.
Qed.

Lemma modify_reg_fst reg data mask w :
  is_u16 (reg_val w reg) ->
  fst (modify_reg reg data mask w) = outcome 0 w && outcome 1 w.
Proof.
  intros Hreg. destruct (outcome 0 w) eqn:H0.
  - now rewrite modify_reg_read_ok.
  - now rewrite modify_reg_read_fails.
Qed.

(** A clear whose STATUS step succeeded, seen from the CONFIG step. *)
Lemma clear_config_step w :
  is_u16 (reg_val w STATUS) -> is_u16 (reg_val w CONFIG) ->
  outcome 0 w = true -> outcome 1 w = true ->
  let w1 := snd (modify_reg STATUS 0 ALRT_STATUS_MSK w) in
  max17048_clear_alerts w = modify_reg CONFIG 0 ALRT_BIT_MSK w1
  /\ is_u16 (reg_val w1 CONFIG)
  /\ outcome 0 w1 = outcome 2 w /\ outcome 1 w1 = outcome 3 w.
Proof.
  intros Hst Hcf H0 H1 w1. subst w1.
  rewrite max17048_clear_alerts_run, modify_reg_fst, H0, H1 by exact Hst.
  cbn [andb]. split; [reflexivity |].
  split; [rewrite modify_reg_other; [exact Hcf | discriminate] |].
  rewrite modify_reg_ok by assumption. cbn [snd].
  split; now apply outcome_after_two.
Qed.

(** C7: a clear-all-alerts first clears bits 8-13 of STATUS and then bit 5
    of CONFIG, in that order on the bus; it returns success exactly when
    the two transfers of each step complete; and when the STATUS step
    fails it returns failure having issued transfers on STATUS only, with
    CONFIG as it was. *)
Theorem max17048_clear_alerts_spec w :
  is_u16 (reg_val w STATUS) -> is_u16 (reg_val w CONFIG) ->
  (outcome 0 w = true -> outcome 1 w = true ->
   outcome 2 w = true -> outcome 3 w = true ->
   exists w' s c,
     max17048_clear_alerts w = (true, w')
     /\ reg_val w' STATUS = Z.land (reg_val w STATUS) 0xC0FF
     /\ reg_val w' CONFIG = Z.land (reg_val w CONFIG) 0xFFDF
     /\ (forall r, r <> STATUS -> r <> CONFIG -> reg_val w' r = reg_val w r)
     /\ journal w'
        = journal w ++ [Rd MAX_ADDR STATUS true; Wr MAX_ADDR STATUS s true;
                        Rd MAX_ADDR CONFIG true; Wr MAX_ADDR CONFIG c true])
  /\ (fst (max17048_clear_alerts w) = true
      <-> outcome 0 w && outcome 1 w && (outcome 2 w && outcome 3 w) = true)
  /\ (outcome 0 w && outcome 1 w = false ->
      exists w' evs,
        max17048_clear_alerts w = (false, w')
        /\ reg_val w' CONFIG = reg_val w CONFIG
        /\ journal w' = journal w ++ evs
        /\ Forall (fun e => xfer_reg e = STATUS) evs).
Proof.
  intros Hst Hcf. split; [| split].
  - intros H0 H1 H2 H3.
    destruct (clear_config_step w Hst Hcf H0 H1) as (Hrun & Hcf1 & Ho2 & Ho3).
    rewrite Hrun. rewrite modify_reg_ok; [| exact Hcf1 | congruence | congruence].
    rewrite modify_reg_other by discriminate.
    rewrite modify_reg_ok by assumption. cbn [snd dev journal].
    do 3 eexists. split; [reflexivity |].
    rewrite !reg_val_insert. cbn [decide].
    destruct (decide (CONFIG = STATUS)) as [Heq | _]; [discriminate Heq |].
    destruct (decide (STATUS = STATUS)) as [_ | Hne]; [| congruence].
    destruct (decide (CONFIG = CONFIG)) as [_ | Hne]; [| congruence].
    split; [now apply clear_status_merge |].
    split; [now apply clear_config_merge |].
    split.
    + intros r Hrs Hrc. rewrite !reg_val_insert.
      destruct (decide (CONFIG = r)); [congruence |].
      destruct (decide (STATUS = r)); [congruence | reflexivity].
    + rewrite <- app_assoc. reflexivity.
  - destruct (outcome 0 w && outcome 1 w) eqn:Hstep.
    + apply andb_true_iff in Hstep as [H0 H1].
      destruct (clear_config_step w Hst Hcf H0 H1) as (Hrun & Hcf1 & Ho2 & Ho3).
      rewrite Hrun, modify_reg_fst, Ho2, Ho3 by exact Hcf1. reflexivity.
    + rewrite max17048_clear_alerts_run, modify_reg_fst, Hstep by exact Hst.
      cbn [fst andb]. reflexivity.
  - intros Hstep.
    destruct (clear_status_step w Hst) as (Hfst & Hkeep & evs & Hj & Hev).
    rewrite max17048_clear_alerts_run, Hfst, Hstep.
    do 2 eexists. split; [reflexivity |]. split; [exact Hkeep |].
    split; [exact Hj | exact Hev].
Qed.

Lemma max17048_clear_alerts_spec_witness :
  let w := bench [(STATUS, 0x6A00); (CONFIG, 0x9734)] [true; false] in
  let w0 := bench [(STATUS, 0x6A00); (CONFIG, 0x9734)] [] in
  is_u16 (reg_val w STATUS) /\ is_u16 (reg_val w CONFIG)
  /\ (exists w' evs,
        max17048_clear_alerts w = (false, w')
        /\ reg_val w' CONFIG = reg_val w CONFIG
        /\ journal w' = journal w ++ evs
        /\ Forall (fun e => xfer_reg e = STATUS) evs)
  /\ (exists w' s c,
        max17048_clear_alerts w0 = (true, w')
        /\ reg_val w' STATUS = Z.land (reg_val w0 STATUS) 0xC0FF
        /\ reg_val w' CONFIG = Z.land (reg_val w0 CONFIG) 0xFFDF
        /\ (forall r, r <> STATUS -> r <> CONFIG -> reg_val w' r = reg_val w0 r)
        /\ journal w'
           = journal w0 ++ [Rd MAX_ADDR STATUS true; Wr MAX_ADDR STATUS s true;
                            Rd MAX_ADDR CONFIG true; Wr MAX_ADDR CONFIG c true]).
Proof.
  intros w w0.
  assert (is_u16 (reg_val w STATUS)) as Hst by (vm_compute; split; congruence).
  assert (is_u16 (reg_val w CONFIG)) as Hcf by (vm_compute; split; congruence).
  split; [exact Hst | split; [exact Hcf | split]].
  - destruct (max17048_clear_alerts_spec w Hst Hcf) as (_ & _ & Hshort).
    apply Hshort. reflexivity.
  - destruct (max17048_clear_alerts_spec w0 Hst Hcf) as (Hall & _ & _).
    apply Hall; reflexivity.
Defined.

(** ** Reading and clearing the alerts *)

(** With a non-null pointer [max17048_get_alerts] reads STATUS, clears the
    alerts if the read completed, stores a mask and returns true, whatever
    the two [ok] flags say. *)
Lemma max17048_get_alerts_run l data0 w :
  let r := read_reg STATUS data0 w in
  let w2 := if fst (fst r) then snd (max17048_clear_alerts (snd r)) else snd r in
  max17048_get_alerts (Some l) data0 w
  = (true,
     World (dev w2) (script w2) (journal w2)
       (<[l := u8 (Z.shiftr (Z.land (snd (fst r)) ALRT_STATUS_MSK)
                            ALRT_STATUS_POS)]> (mem w2))).
Proof.
  intros r w2. subst r w2. unfold max17048_get_alerts, bind.
  destruct (read_reg STATUS data0 w) as [[[|] data] w1]; cbn [fst snd].
  - now destruct (max17048_clear_alerts w1).
  - reflexivity.
Qed.

Lemma max17048_get_alerts_true l data0 w :
  fst (max17048_get_alerts (Some l) data0 w) = true.
Proof. now rewrite max17048_get_alerts_run. Qed.

(** The mask computed at line 173 is the 6-bit field at bits 8-13. *)
Lemma alert_mask_field data :
  u8 (Z.shiftr (Z.land data ALRT_STATUS_MSK) ALRT_STATUS_POS)
  = Z.land (Z.shiftr data 8) 0x3F.
Proof.
  change ALRT_STATUS_POS with 8. rewrite Z.shiftr_land.
  change (Z.shiftr ALRT_STATUS_MSK 8) with (Z.ones 6).
  apply u8_small. pose proof (land_ones_range (Z.shiftr data 8) 6 ltac:(lia)) as Hr.
  change (2 ^ 6) with 64 in Hr. change (Z.ones 6) with 63 in Hr.
  unfold is_u8. lia.
Qed.

(** After a completed read of a 16-bit STATUS, the caller's cell holds
    bits 8-13 of the register, whatever the clear did afterwards. *)
Lemma max17048_get_alerts_mask l data0 w :
  is_u16 (reg_val w STATUS) -> outcome 0 w = true ->
  mem (snd (max17048_get_alerts (Some l) data0 w)) !! l
  = Some (Z.land (Z.shiftr (reg_val w STATUS) 8) 0x3F).
Proof.
  intros Hst H0. rewrite max17048_get_alerts_run. cbn [snd mem].
  rewrite lookup_insert_eq, alert_mask_field, read_reg_run, H0. cbn [fst snd].
  now rewrite SWAP16_involutive.
Qed.

(** The 6-bit mask never carries the flag the header files under 0x80, and
    carries the unnamed 0x08 whenever bit 11 of STATUS is set. *)
Lemma alert_mask_bits status :
  Z.land (Z.land (Z.shiftr status 8) 0x3F) MAX_ALERT_VOLTAGE_RESET = 0
  /\ Z.testbit (Z.land (Z.shiftr status 8) 0x3F) 3 = Z.testbit status 11.
Proof.
  split.
  - rewrite <- Z.land_assoc. change (Z.land 0x3F MAX_ALERT_VOLTAGE_RESET) with 0.
    apply Z.land_0_r.
  - bit_case.
Qed.

(** C1: on the code, a get-and-clear-alerts with a non-null pointer returns
    success whatever the transport did.  With the read of STATUS failing,
    the call still returns true, and the caller's cell receives a mask made
    from the never-filled local (here 0x2A00, giving 0x2A) although the
    register holds 0x0100. *)
Theorem max17048_get_alerts_hides_failure :
  (forall l data0 w, fst (max17048_get_alerts (Some l) data0 w) = true)
  /\ (let w := bench [(STATUS, 0x0100)] [false] in
      max17048_get_alerts (Some 0%nat) 0x2A00 w
      = (true,
         World (dev w) [] [Rd MAX_ADDR STATUS false] (<[0%nat := 0x2A]> ∅)))
  /\ (let w := bench [(STATUS, 0x0100)] [true; true; false] in
      fst (max17048_get_alerts (Some 0%nat) 0 w) = true
      /\ fst (max17048_clear_alerts
                (snd (read_reg STATUS 0 w))) = false).
Proof.
  split; [exact max17048_get_alerts_true |].
  split; [reflexivity |]. split; reflexivity.
Qed.

(** C2: on the code, a STATUS of 0x0800 (bit 11 set) makes get-and-clear
    alerts deliver the mask 0x08, which is none of the six flags the header
    names: the header files the voltage-reset flag under 0x80, a bit the
    6-bit field can never carry. *)
Theorem max17048_get_alerts_unnamed_bit :
  let w := bench [(STATUS, 0x0800)] [] in
  fst (max17048_get_alerts (Some 0%nat) 0 w) = true
  /\ mem (snd (max17048_get_alerts (Some 0%nat) 0 w)) !! 0%nat = Some 0x08
  /\ only_named_alerts 0x08 = false
  /\ Z.land 0x08 named_alerts = 0.
Proof. repeat split. Qed.

(** * Further properties of the driver *)

(** ** Byte order *)

(** Drops the bits a 16-bit value cannot have. *)
Ltac high_bits :=
  repeat match goal with
  | |- context [Z.testbit ?x ?i] =>
      rewrite (is_u16_testbit_high x i) by (assumption || lia)
  end;
  rewrite ?orb_false_r, ?andb_false_r; try reflexivity.

(** X1: [SWAP16] exchanges the two bytes of a 16-bit word, so swapping twice
    gives the word back: what [write_reg] puts on the wire, [read_reg]
    takes off it. *)
Theorem SWAP16_exchanges_bytes x :
  is_u16 x ->
  Z.land (SWAP16 x) 0xFF = Z.shiftr x 8
  /\ Z.shiftr (SWAP16 x) 8 = Z.land x 0xFF
  /\ SWAP16 (SWAP16 x) = x.
Proof.
  intros Hx. split; [| split].
  - apply u16_bits_inj.
    + apply land_u16_r. unfold is_u16. lia.
    + apply (is_u16_below _ 256); [now apply shiftr_8_range | lia].
    + unfold SWAP16. bits16; high_bits.
  - apply u16_bits_inj.
    + apply (is_u16_below _ 256); [apply shiftr_8_range, SWAP16_range | lia].
    + apply land_u16_r. unfold is_u16. lia.
    + unfold SWAP16. bits16; high_bits.
  - now apply SWAP16_involutive.
Qed.

Lemma SWAP16_exchanges_bytes_witness :
  is_u16 0x12AB
  /\ Z.land (SWAP16 0x12AB) 0xFF = Z.shiftr 0x12AB 8
  /\ Z.shiftr (SWAP16 0x12AB) 8 = Z.land 0x12AB 0xFF
  /\ SWAP16 (SWAP16 0x12AB) = 0x12AB.
Proof.
  assert (is_u16 0x12AB) as Hx by (unfold is_u16; lia).
  split; [exact Hx | exact (SWAP16_exchanges_bytes 0x12AB Hx)].
Defined.

(** ** Register round trip *)

Lemma outcome_after_one n d s j m w :
  s = tl (script w) -> outcome n (World d s j m) = outcome (S n) w.
Proof. intros ->. unfold outcome. cbn [script]. now rewrite nth_tl. Qed.

(** X2: a [write_reg] that completes followed by a [read_reg] that completes
    hands back the 16-bit word that was written; a [write_reg] that fails
    leaves the register file as it was. *)
Theorem write_reg_read_reg w reg data buf :
  is_u16 data ->
  (outcome 0 w = true -> outcome 1 w = true ->
   fst (write_reg reg data w) = true
   /\ fst (read_reg reg buf (snd (write_reg reg data w))) = (true, data))
  /\ (outcome 0 w = false ->
      fst (write_reg reg data w) = false
      /\ dev (snd (write_reg reg data w)) = dev w).
Proof.
  intros Hdata. rewrite write_reg_run. cbn [fst snd]. split.
  - intros H0 H1. rewrite H0. split; [reflexivity |].
    rewrite read_reg_run. cbn [fst].
    rewrite (outcome_after_one 0 _ _ _ _ w), H1 by reflexivity.
    rewrite reg_val_insert. destruct (decide (reg = reg)); [| congruence].
    rewrite (SWAP16_involutive data) by exact Hdata.
    now rewrite (SWAP16_involutive data).
  - intros H0. now rewrite H0.
Qed.

Lemma write_reg_read_reg_witness :
  let w := bench [(VALRT, 0x12FF)] [] in
  let w' := bench [(VALRT, 0x12FF)] [false] in
  is_u16 0xBEEF
  /\ fst (read_reg VALRT 0 (snd (write_reg VALRT 0xBEEF w))) = (true, 0xBEEF)
  /\ dev (snd (write_reg VALRT 0xBEEF w')) = dev w'.
Proof.
  intros w w'.
  assert (is_u16 0xBEEF) as Hdata by (unfold is_u16; lia).
  split; [exact Hdata | split].
  - destruct (write_reg_read_reg w VALRT 0xBEEF 0 Hdata) as [Hok _].
    apply Hok; reflexivity.
  - destruct (write_reg_read_reg w' VALRT 0xBEEF 0 Hdata) as [_ Hfail].
    apply Hfail. reflexivity.
Defined.

(** ** Failure of a read-modify-write *)

(** X3: [modify_reg] on a 16-bit register returns true exactly when its read
    and its write both complete; when it returns false, whichever transfer
    failed, the register file is as it was, and after a failed read no
    write was attempted. *)
Theorem modify_reg_failure w reg data mask :
  is_u16 (reg_val w reg) ->
  fst (modify_reg reg data mask w) = outcome 0 w && outcome 1 w
  /\ (fst (modify_reg reg data mask w) = false ->
      dev (snd (modify_reg reg data mask w)) = dev w)
  /\ (outcome 0 w = false ->
      journal (snd (modify_reg reg data mask w))
      = journal w ++ [Rd MAX_ADDR reg false]).
Proof.
  intros Hreg. split; [now apply modify_reg_fst |]. split.
  - rewrite modify_reg_fst by exact Hreg. intros Hfail.
    destruct (outcome 0 w) eqn:H0.
    + rewrite modify_reg_read_ok by assumption. cbn [andb] in Hfail.
      now rewrite Hfail.
    + now rewrite modify_reg_read_fails.
  - intros H0. now rewrite modify_reg_read_fails.
Qed.

Lemma modify_reg_failure_witness :
  let w := bench [(CONFIG, 0x971C)] [true; false] in
  is_u16 (reg_val w CONFIG)
  /\ fst (modify_reg CONFIG 0x0005 0x001F w) = false
  /\ dev (snd (modify_reg CONFIG 0x0005 0x001F w)) = dev w.
Proof.
  intros w.
  assert (is_u16 (reg_val w CONFIG)) as Hreg by (vm_compute; split; congruence).
  destruct (modify_reg_failure w CONFIG 0x0005 0x001F Hreg) as (Hfst & Hkeep & _).
  split; [exact Hreg | split; [exact Hfst | apply Hkeep; exact Hfst]].
Defined.

(** ** Cell voltage, end to end *)

(** The integer decoding is the exact scale of the register, 78.125 uV per
    count, rounded down to whole millivolts. *)
Lemma VCELL_TO_MV_microvolts raw :
  is_u16 raw -> VCELL_TO_MV raw = raw * 78125 / 1000000.
Proof.
  intros Hr. rewrite VCELL_TO_MV_div by exact Hr.
  replace (raw * 78125) with (raw * 5 * 15625) by lia.
  change 1000000 with (64 * 15625).
  now rewrite Z.div_mul_cancel_r by lia.
Qed.

(** X4: a cell-voltage read that completes returns true and stores the VCELL
    count scaled by 78.125 uV and rounded down to millivolts, at most
    5119 mV; one that fails returns false and leaves the caller's cell as it
    was.  Either way the gauge's registers are not written. *)
Theorem max17048_get_vcell_spec w l raw :
  is_u16 raw -> reg_val w VCELL = raw ->
  (outcome 0 w = true ->
   exists w',
     max17048_get_vcell (Some l) w = (true, w')
     /\ mem w' !! l = Some (raw * 78125 / 1000000)
     /\ 0 <= raw * 78125 / 1000000 <= 5119
     /\ dev w' = dev w)
  /\ (outcome 0 w = false ->
      exists w',
        max17048_get_vcell (Some l) w = (false, w')
        /\ mem w' = mem w /\ dev w' = dev w).
Proof.
  intros Hraw Hreg. subst raw.
  rewrite max17048_get_vcell_run by exact Hraw. split; intros H0; rewrite H0.
  - eexists. split; [reflexivity |]. cbn [mem dev].
    pose proof (VCELL_TO_MV_range _ Hraw) as Hrange.
    rewrite u16_small by (unfold is_u16; lia).
    rewrite <- VCELL_TO_MV_microvolts by exact Hraw.
    split; [apply lookup_insert_eq | split; [exact Hrange | reflexivity]].
  - eexists. split; [reflexivity |]. split; reflexivity.
Qed.

Lemma max17048_get_vcell_spec_witness :
  let w := bench [(VCELL, 0xC350)] [] in
  let w0 := bench [(VCELL, 0xC350)] [false] in
  is_u16 0xC350 /\ reg_val w VCELL = 0xC350
  /\ (exists w',
        max17048_get_vcell (Some 0%nat) w = (true, w')
        /\ mem w' !! 0%nat = Some (0xC350 * 78125 / 1000000)
        /\ 0 <= 0xC350 * 78125 / 1000000 <= 5119
        /\ dev w' = dev w)
  /\ (exists w',
        max17048_get_vcell (Some 0%nat) w0 = (false, w')
        /\ mem w' = mem w0 /\ dev w' = dev w0).
Proof.
  intros w w0.
  assert (is_u16 0xC350) as Hraw by (unfold is_u16; lia).
  assert (reg_val w VCELL = 0xC350) as Hreg by reflexivity.
  assert (reg_val w0 VCELL = 0xC350) as Hreg0 by reflexivity.
  split; [exact Hraw | split; [exact Hreg | split]].
  - destruct (max17048_get_vcell_spec w 0%nat 0xC350 Hraw Hreg) as [Hok _].
    apply Hok. reflexivity.
  - destruct (max17048_get_vcell_spec w0 0%nat 0xC350 Hraw Hreg0) as [_ Hfail].
    apply Hfail. reflexivity.
Defined.

(** ** The other threshold setters *)

Lemma valrt_max_merge old q :
  is_u16 old ->
  let data := u16 (Z.land (uint (Z.shiftl q VALRT_MAX_POS)) VALRT_MAX_MSK) in
  let new := merge old data VALRT_MAX_MSK in
  Z.land new 0xFF = Z.land q 0xFF /\ Z.shiftr new 8 = Z.shiftr old 8.
Proof.
  intros Hold data new. subst data new.
  change VALRT_MAX_POS with 0. change VALRT_MAX_MSK with 0x00FF. split.
  - apply u16_bits_inj.
    + apply land_u16_r. unfold is_u16. lia.
    + apply land_u16_r. unfold is_u16. lia.
    + bits16.
  - apply u16_bits_inj.
    + apply (is_u16_below _ 256); [apply shiftr_8_range, merge_range | lia].
    + apply (is_u16_below _ 256); [now apply shiftr_8_range | lia].
    + bits16; high_bits.
Qed.

(** X5: for every 16-bit millivolt input, an over-voltage update whose two
    transfers complete leaves [(mv / 20) & 0xFF] in bits 0-7 of VALRT,
    which is [mv / 20] itself below 5120 mV, and leaves bits 8-15 of VALRT
    (the minimum-voltage field) and every other register as they were. *)
Theorem max17048_set_overvolted_voltage_spec w mv :
  is_u16 mv -> is_u16 (reg_val w VALRT) ->
  outcome 0 w = true -> outcome 1 w = true ->
  exists w',
    max17048_set_overvolted_voltage mv w = (true, w')
    /\ Z.land (reg_val w' VALRT) 0xFF = (mv / 20) mod 256
    /\ (mv < 5120 -> Z.land (reg_val w' VALRT) 0xFF = mv / 20)
    /\ Z.shiftr (reg_val w' VALRT) 8 = Z.shiftr (reg_val w VALRT) 8
    /\ (forall r, r <> VALRT -> reg_val w' r = reg_val w r).
Proof.
  intros Hmv Hold H0 H1. unfold max17048_set_overvolted_voltage.
  rewrite modify_reg_ok by assumption. eexists. split; [reflexivity |].
  rewrite reg_val_insert. destruct (decide (VALRT = VALRT)); [| congruence].
  destruct (valrt_max_merge (reg_val w VALRT) (mv / VALRT_RESOLUTION) Hold)
    as [Hlo Hhi].
  rewrite Hlo. change VALRT_RESOLUTION with 20.
  change 0xFF with (Z.ones 8). rewrite Z.land_ones by lia.
  change (2 ^ 8) with 256.
  split; [reflexivity |]. split; [| split; [exact Hhi |]].
  - intros Hlt. apply Z.mod_small. unfold is_u16 in Hmv.
    Z.div_mod_to_equations. lia.
  - intros r Hne. rewrite reg_val_insert.
    destruct (decide (VALRT = r)); [congruence | reflexivity].
Qed.

Lemma max17048_set_overvolted_voltage_spec_witness :
  let w := bench [(VALRT, 0x96D7)] [] in
  is_u16 4200 /\ is_u16 (reg_val w VALRT)
  /\ outcome 0 w = true /\ outcome 1 w = true
  /\ exists w',
      max17048_set_overvolted_voltage 4200 w = (true, w')
      /\ Z.land (reg_val w' VALRT) 0xFF = (4200 / 20) mod 256
      /\ (4200 < 5120 -> Z.land (reg_val w' VALRT) 0xFF = 4200 / 20)
      /\ Z.shiftr (reg_val w' VALRT) 8 = Z.shiftr (reg_val w VALRT) 8
      /\ (forall r, r <> VALRT -> reg_val w' r = reg_val w r).
Proof.
  intros w.
  assert (is_u16 4200) as Hmv by (unfold is_u16; lia).
  assert (is_u16 (reg_val w VALRT)) as Hold by (vm_compute; split; congruence).
  assert (outcome 0 w = true) as H0 by reflexivity.
  assert (outcome 1 w = true) as H1 by reflexivity.
  split; [exact Hmv | split; [exact Hold | split; [exact H0 | split; [exact H1 |]]]].
  exact (max17048_set_overvolted_voltage_spec w 4200 Hmv Hold H0 H1).
Defined.

Lemma vreset_merge old q :
  is_u16 old ->
  let data := u16 (Z.land (uint (Z.shiftl q VRESET_POS)) VRESET_MSK) in
  let new := merge old data VRESET_MSK in
  Z.shiftr new 9 = Z.land q 0x7F /\ Z.land new 0x1FF = Z.land old 0x1FF.
Proof.
  intros Hold data new. subst data new.
  change VRESET_POS with 9. change VRESET_MSK with 0xFE00. split.
  - apply u16_bits_inj.
    + pose proof (merge_range old (u16 (Z.land (uint (Z.shiftl q 9)) 0xFE00)) 0xFE00)
        as Hm.
      unfold is_u16 in *. rewrite Z.shiftr_div_pow2 by lia.
      change (2 ^ 9) with 512. Z.div_mod_to_equations. lia.
    + apply land_u16_r. unfold is_u16. lia.
    + bits16.
  - apply u16_bits_inj.
    + apply land_u16_r. unfold is_u16. lia.
    + apply land_u16_r. unfold is_u16. lia.
    + bits16.
Qed.

(** X6: for every 16-bit millivolt input, a reset-voltage update whose two
    transfers complete leaves [(mv / 40) & 0x7F] in bits 9-15 of VRESET_ID,
    which is [mv / 40] itself below 5120 mV, and leaves bits 0-8 of that
    register and every other register as they were. *)
Theorem max17048_set_reset_voltage_spec w mv :
  is_u16 mv -> is_u16 (reg_val w VRESET_ID) ->
  outcome 0 w = true -> outcome 1 w = true ->
  exists w',
    max17048_set_reset_voltage mv w = (true, w')
    /\ Z.shiftr (reg_val w' VRESET_ID) 9 = (mv / 40) mod 128
    /\ (mv < 5120 -> Z.shiftr (reg_val w' VRESET_ID) 9 = mv / 40)
    /\ Z.land (reg_val w' VRESET_ID) 0x1FF = Z.land (reg_val w VRESET_ID) 0x1FF
    /\ (forall r, r <> VRESET_ID -> reg_val w' r = reg_val w r).
Proof.
  intros Hmv Hold H0 H1. unfold max17048_set_reset_voltage.
  rewrite modify_reg_ok by assumption. eexists. split; [reflexivity |].
  rewrite reg_val_insert.
  destruct (decide (VRESET_ID = VRESET_ID)); [| congruence].
  destruct (vreset_merge (reg_val w VRESET_ID) (mv / VRESET_RESOLUTION) Hold)
    as [Hhi Hlo].
  rewrite Hhi. change VRESET_RESOLUTION with 40.
  change 0x7F with (Z.ones 7). rewrite Z.land_ones by lia.
  change (2 ^ 7) with 128.
  split; [reflexivity |]. split; [| split; [exact Hlo |]].
  - intros Hlt. apply Z.mod_small. unfold is_u16 in Hmv.
    Z.div_mod_to_equations. lia.
  - intros r Hne. rewrite reg_val_insert.
    destruct (decide (VRESET_ID = r)); [congruence | reflexivity].
Qed.

Lemma max17048_set_reset_voltage_spec_witness :
  let w := bench [(VRESET_ID, 0x960C)] [] in
  is_u16 3000 /\ is_u16 (reg_val w VRESET_ID)
  /\ outcome 0 w = true /\ outcome 1 w = true
  /\ exists w',
      max17048_set_reset_voltage 3000 w = (true, w')
      /\ Z.shiftr (reg_val w' VRESET_ID) 9 = (3000 / 40) mod 128
      /\ (3000 < 5120 -> Z.shiftr (reg_val w' VRESET_ID) 9 = 3000 / 40)
      /\ Z.land (reg_val w' VRESET_ID) 0x1FF
         = Z.land (reg_val w VRESET_ID) 0x1FF
      /\ (forall r, r <> VRESET_ID -> reg_val w' r = reg_val w r).
Proof.
  intros w.
  assert (is_u16 3000) as Hmv by (unfold is_u16; lia).
  assert (is_u16 (reg_val w VRESET_ID)) as Hold
    by (vm_compute; split; congruence).
  assert (outcome 0 w = true) as H0 by reflexivity.
  assert (outcome 1 w = true) as H1 by reflexivity.
  split; [exact Hmv | split; [exact Hold | split; [exact H0 | split; [exact H1 |]]]].
  exact (max17048_set_reset_voltage_spec w 3000 Hmv Hold H0 H1).
Defined.

(** ** The alert enables *)

Lemma alsc_merge old enable :
  is_u16 old ->
  let data := u16 (Z.land (Z.shiftl (Z.b2z enable) ALSC_BIT_POS) ALSC_BIT_MSK) in
  let new := merge old data ALSC_BIT_MSK in
  Z.testbit new 6 = enable /\ Z.land new 0xFFBF = Z.land old 0xFFBF.
Proof.
  intros Hold data new. subst data new.
  change ALSC_BIT_POS with 6. change ALSC_BIT_MSK with 0x0040. split.
  - destruct enable; cbn [Z.b2z]; bit_case.
  - apply u16_bits_inj.
    + apply land_u16_r. unfold is_u16. lia.
    + apply land_u16_r. unfold is_u16. lia.
    + bits16.
Qed.

Lemma envr_merge old enable :
  is_u16 old ->
  let data := u16 (Z.land (Z.shiftl (Z.b2z enable) ENVR_BIT_POS) ENVR_BIT_MSK) in
  let new := merge old data ENVR_BIT_MSK in
  Z.testbit new 14 = enable /\ Z.land new 0xBFFF = Z.land old 0xBFFF.
Proof.
  intros Hold data new. subst data new.
  change ENVR_BIT_POS with 14. change ENVR_BIT_MSK with 0x4000. split.
  - destruct enable; cbn [Z.b2z]; bit_case.
  - apply u16_bits_inj.
    + apply land_u16_r. unfold is_u16. lia.
    + apply land_u16_r. unfold is_u16. lia.
    + bits16.
Qed.

(** X7: an SOC-change enable update whose two transfers complete makes bit 6
    of CONFIG equal to the requested flag and leaves the other fifteen bits
    of CONFIG and every other register as they were. *)
Theorem max17048_set_soc_change_alert_spec w enable :
  is_u16 (reg_val w CONFIG) ->
  outcome 0 w = true -> outcome 1 w = true ->
  exists w',
    max17048_set_soc_change_alert enable w = (true, w')
    /\ Z.testbit (reg_val w' CONFIG) 6 = enable
    /\ Z.land (reg_val w' CONFIG) 0xFFBF = Z.land (reg_val w CONFIG) 0xFFBF
    /\ (forall r, r <> CONFIG -> reg_val w' r = reg_val w r).
Proof.
  intros Hold H0 H1. unfold max17048_set_soc_change_alert.
  rewrite modify_reg_ok by assumption. eexists. split; [reflexivity |].
  rewrite reg_val_insert. destruct (decide (CONFIG = CONFIG)); [| congruence].
  destruct (alsc_merge (reg_val w CONFIG) enable Hold) as [Hbit Hrest].
  split; [exact Hbit | split; [exact Hrest |]].
  intros r Hne. rewrite reg_val_insert.
  destruct (decide (CONFIG = r)); [congruence | reflexivity].
Qed.

Lemma max17048_set_soc_change_alert_spec_witness :
  let w := bench [(CONFIG, 0x971C)] [] in
  is_u16 (reg_val w CONFIG) /\ outcome 0 w = true /\ outcome 1 w = true
  /\ exists w',
      max17048_set_soc_change_alert true w = (true, w')
      /\ Z.testbit (reg_val w' CONFIG) 6 = true
      /\ Z.land (reg_val w' CONFIG) 0xFFBF = Z.land (reg_val w CONFIG) 0xFFBF
      /\ (forall r, r <> CONFIG -> reg_val w' r = reg_val w r).
Proof.
  intros w.
  assert (is_u16 (reg_val w CONFIG)) as Hold by (vm_compute; split; congruence).
  assert (outcome 0 w = true) as H0 by reflexivity.
  assert (outcome 1 w = true) as H1 by reflexivity.
  split; [exact Hold | split; [exact H0 | split; [exact H1 |]]].
  exact (max17048_set_soc_change_alert_spec w true Hold H0 H1).
Defined.

(** X8: a voltage-reset enable update whose two transfers complete makes bit
    14 of STATUS equal to the requested flag and leaves the other fifteen
    bits of STATUS, the alert flags at bits 8-13 among them, and every other
    register as they were. *)
Theorem max17048_set_voltage_reset_alert_spec w enable :
  is_u16 (reg_val w STATUS) ->
  outcome 0 w = true -> outcome 1 w = true ->
  exists w',
    max17048_set_voltage_reset_alert enable w = (true, w')
    /\ Z.testbit (reg_val w' STATUS) 14 = enable
    /\ Z.land (reg_val w' STATUS) 0xBFFF = Z.land (reg_val w STATUS) 0xBFFF
    /\ (forall r, r <> STATUS -> reg_val w' r = reg_val w r).
Proof.
  intros Hold H0 H1. unfold max17048_set_voltage_reset_alert.
  rewrite modify_reg_ok by assumption. eexists. split; [reflexivity |].
  rewrite reg_val_insert. destruct (decide (STATUS = STATUS)); [| congruence].
  destruct (envr_merge (reg_val w STATUS) enable Hold) as [Hbit Hrest].
  split; [exact Hbit | split; [exact Hrest |]].
  intros r Hne. rewrite reg_val_insert.
  destruct (decide (STATUS = r)); [congruence | reflexivity].
Qed.

Lemma max17048_set_voltage_reset_alert_spec_witness :
  let w := bench [(STATUS, 0x6A00)] [] in
  is_u16 (reg_val w STATUS) /\ outcome 0 w = true /\ outcome 1 w = true
  /\ exists w',
      max17048_set_voltage_reset_alert false w = (true, w')
      /\ Z.testbit (reg_val w' STATUS) 14 = false
      /\ Z.land (reg_val w' STATUS) 0xBFFF = Z.land (reg_val w STATUS) 0xBFFF
      /\ (forall r, r <> STATUS -> reg_val w' r = reg_val w r).
Proof.
  intros w.
  assert (is_u16 (reg_val w STATUS)) as Hold by (vm_compute; split; congruence).
  assert (outcome 0 w = true) as H0 by reflexivity.
  assert (outcome 1 w = true) as H1 by reflexivity.
  split; [exact Hold | split; [exact H0 | split; [exact H1 |]]].
  exact (max17048_set_voltage_reset_alert_spec w false Hold H0 H1).
Defined.

(** ** Composing updates of one register *)

(** Two [modify_reg] on the same register, all four transfers completing. *)
Lemma modify_reg_twice reg d1 m1 d2 m2 w :
  is_u16 (reg_val w reg) ->
  outcome 0 w = true -> outcome 1 w = true ->
  outcome 2 w = true -> outcome 3 w = true ->
  fst (modify_reg reg d1 m1 w) = true
  /\ fst (modify_reg reg d2 m2 (snd (modify_reg reg d1 m1 w))) = true
  /\ dev (snd (modify_reg reg d2 m2 (snd (modify_reg reg d1 m1 w))))
     = <[reg := merge (merge (reg_val w reg) d1 m1) d2 m2]> (dev w).
Proof.
  intros Hreg H0 H1 H2 H3.
  rewrite (modify_reg_ok reg d1 m1 w) by assumption. cbn [fst snd].
  split; [reflexivity |].
  match goal with |- context [modify_reg reg d2 m2 ?w1] => set (w1' := w1) end.
  assert (reg_val w1' reg = merge (reg_val w reg) d1 m1) as Hnew.
  { subst w1'. rewrite reg_val_insert. now destruct (decide (reg = reg)). }
  rewrite (modify_reg_ok reg d2 m2 w1').
  - cbn [fst snd dev]. split; [reflexivity |].
    rewrite Hnew. subst w1'. cbn [dev]. apply insert_insert_eq.
  - rewrite Hnew. apply merge_range.
  - subst w1'. now rewrite (outcome_after_two 0 _ _ _ _ w).
  - subst w1'. now rewrite (outcome_after_two 1 _ _ _ _ w).
Qed.

Lemma merge_commute buf d1 m1 d2 m2 :
  Z.land m1 m2 = 0 ->
  merge (merge buf d1 m1) d2 m2 = merge (merge buf d2 m2) d1 m1.
Proof.
  intros Hdisj. apply u16_bits_inj; try apply merge_range.
  intros i Hi. rewrite !merge_testbit by exact Hi.
  assert (Z.testbit m1 i && Z.testbit m2 i = false) as Hbit.
  { rewrite <- Z.land_spec, Hdisj. apply Z.bits_0. }
  destruct (Z.testbit m1 i), (Z.testbit m2 i); try reflexivity.
  discriminate Hbit.
Qed.

(** X9: two masked updates of one register under disjoint masks commute: with
    all four transfers completing, either order leaves the same register
    file. *)
Theorem modify_reg_disjoint_commute w reg d1 m1 d2 m2 :
  is_u16 (reg_val w reg) -> Z.land m1 m2 = 0 ->
  outcome 0 w = true -> outcome 1 w = true ->
  outcome 2 w = true -> outcome 3 w = true ->
  dev (snd (modify_reg reg d2 m2 (snd (modify_reg reg d1 m1 w))))
  = dev (snd (modify_reg reg d1 m1 (snd (modify_reg reg d2 m2 w)))).
Proof.
  intros Hreg Hdisj H0 H1 H2 H3.
  destruct (modify_reg_twice reg d1 m1 d2 m2 w Hreg H0 H1 H2 H3) as (_ & _ & ->).
  destruct (modify_reg_twice reg d2 m2 d1 m1 w Hreg H0 H1 H2 H3) as (_ & _ & ->).
  now rewrite merge_commute.
Qed.

Lemma modify_reg_disjoint_commute_witness :
  let w := bench [(CONFIG, 0x971C)] [] in
  is_u16 (reg_val w CONFIG) /\ Z.land 0x001F 0x0040 = 0
  /\ dev (snd (modify_reg CONFIG 0x0040 0x0040
                 (snd (modify_reg CONFIG 0x0011 0x001F w))))
     = dev (snd (modify_reg CONFIG 0x0011 0x001F
                   (snd (modify_reg CONFIG 0x0040 0x0040 w)))).
Proof.
  intros w.
  assert (is_u16 (reg_val w CONFIG)) as Hreg by (vm_compute; split; congruence).
  assert (Z.land 0x001F 0x0040 = 0) as Hdisj by reflexivity.
  split; [exact Hreg | split; [exact Hdisj |]].
  exact (modify_reg_disjoint_commute w CONFIG 0x0011 0x001F 0x0040 0x0040
           Hreg Hdisj eq_refl eq_refl eq_refl eq_refl).
Defined.

(** The register a file shows after an insertion at it. *)
Lemma reg_val_of_dev w reg v d :
  dev w = <[reg := v]> d -> reg_val w reg = v.
Proof. intros Heq. unfold reg_val. now rewrite Heq, lookup_insert_eq. Qed.

Lemma split_bytes x : x = 256 * Z.shiftr x 8 + Z.land x 0xFF.
Proof.
  rewrite Z.shiftr_div_pow2 by lia. change 0xFF with (Z.ones 8).
  rewrite Z.land_ones by lia. change (2 ^ 8) with 256.
  apply Z.div_mod. lia.
Qed.

(** X10: setting the under-voltage and the over-voltage level, in either order
    and with all four transfers completing, leaves VALRT holding
    [mv / 20 mod 256] of the one in its upper byte and of the other in its
    lower byte, whatever VALRT held before. *)
Theorem valrt_thresholds_compose w lo hi :
  is_u16 (reg_val w VALRT) ->
  outcome 0 w = true -> outcome 1 w = true ->
  outcome 2 w = true -> outcome 3 w = true ->
  let both := 256 * ((lo / 20) mod 256) + (hi / 20) mod 256 in
  reg_val (snd (max17048_set_overvolted_voltage hi
                  (snd (max17048_set_undervolted_voltage lo w)))) VALRT = both
  /\ reg_val (snd (max17048_set_undervolted_voltage lo
                     (snd (max17048_set_overvolted_voltage hi w)))) VALRT = both.
Proof.
  intros Hreg H0 H1 H2 H3 both. subst both.
  unfold max17048_set_overvolted_voltage, max17048_set_undervolted_voltage.
  assert (forall q, Z.land q 0xFF = q mod 256) as Hbyte.
  { intros q. change 0xFF with (Z.ones 8). now rewrite Z.land_ones by lia. }
  split.
  - match goal with
    | |- reg_val (snd (modify_reg _ ?d2 ?m2 (snd (modify_reg _ ?d1 ?m1 _)))) _ = _ =>
        destruct (modify_reg_twice VALRT d1 m1 d2 m2 w Hreg H0 H1 H2 H3)
          as (_ & _ & Hfile)
    end.
    rewrite (reg_val_of_dev _ _ _ _ Hfile).
    match goal with |- ?new = _ => rewrite (split_bytes new) end.
    destruct (valrt_min_merge (reg_val w VALRT) (lo / VALRT_RESOLUTION) Hreg)
      as [Hhi _].
    match goal with
    | |- context [merge (merge ?o ?d ?m) _ _] =>
        destruct (valrt_max_merge (merge o d m) (hi / VALRT_RESOLUTION)
                    (merge_range o d m)) as [Hlo' Hhi']
    end.
    rewrite Hlo', Hhi', Hhi, !Hbyte. reflexivity.
  - match goal with
    | |- reg_val (snd (modify_reg _ ?d2 ?m2 (snd (modify_reg _ ?d1 ?m1 _)))) _ = _ =>
        destruct (modify_reg_twice VALRT d1 m1 d2 m2 w Hreg H0 H1 H2 H3)
          as (_ & _ & Hfile)
    end.
    rewrite (reg_val_of_dev _ _ _ _ Hfile).
    match goal with |- ?new = _ => rewrite (split_bytes new) end.
    destruct (valrt_max_merge (reg_val w VALRT) (hi / VALRT_RESOLUTION) Hreg)
      as [Hlo _].
    match goal with
    | |- context [merge (merge ?o ?d ?m) _ _] =>
        destruct (valrt_min_merge (merge o d m) (lo / VALRT_RESOLUTION)
                    (merge_range o d m)) as [Hhi' Hlo']
    end.
    rewrite Hhi', Hlo', Hlo, !Hbyte. reflexivity.
Qed.

Lemma valrt_thresholds_compose_witness :
  let w := bench [(VALRT, 0x12D7)] [] in
  is_u16 (reg_val w VALRT)
  /\ reg_val (snd (max17048_set_overvolted_voltage 4200
                     (snd (max17048_set_undervolted_voltage 3000 w)))) VALRT
     = 256 * ((3000 / 20) mod 256) + (4200 / 20) mod 256.
Proof.
  intros w.
  assert (is_u16 (reg_val w VALRT)) as Hreg by (vm_compute; split; congruence).
  split; [exact Hreg |].
  destruct (valrt_thresholds_compose w 3000 4200 Hreg
              eq_refl eq_refl eq_refl eq_refl) as [Hboth _].
  exact Hboth.
Defined.

(** ** Draining the alert latch *)

(** A clear whose four transfers complete, field by field. *)
Lemma max17048_clear_alerts_ok w :
  is_u16 (reg_val w STATUS) -> is_u16 (reg_val w CONFIG) ->
  outcome 0 w = true -> outcome 1 w = true ->
  outcome 2 w = true -> outcome 3 w = true ->
  fst (max17048_clear_alerts w) = true
  /\ dev (snd (max17048_clear_alerts w))
     = <[CONFIG := Z.land (reg_val w CONFIG) 0xFFDF]>
         (<[STATUS := Z.land (reg_val w STATUS) 0xC0FF]> (dev w))
  /\ script (snd (max17048_clear_alerts w)) = tl (tl (tl (tl (script w))))
  /\ mem (snd (max17048_clear_alerts w)) = mem w.
Proof.
  intros Hst Hcf H0 H1 H2 H3.
  destruct (clear_config_step w Hst Hcf H0 H1) as (Hrun & Hcf1 & Ho2 & Ho3).
  rewrite Hrun. rewrite modify_reg_ok; [| exact Hcf1 | congruence | congruence].
  rewrite modify_reg_other by discriminate.
  rewrite modify_reg_ok by assumption. cbn [fst snd dev script mem].
  rewrite clear_status_merge, clear_config_merge by assumption.
  repeat split.
Qed.

(** What a register file shows after the two insertions of a clear. *)
Lemma cleared_regs d0 d sv cv :
  d0 = <[CONFIG := cv]> (<[STATUS := sv]> d) ->
  (forall s j m, reg_val (World d0 s j m) STATUS = sv)
  /\ (forall s j m, reg_val (World d0 s j m) CONFIG = cv).
Proof.
  intros ->. split; intros s j m; unfold reg_val; cbn [dev].
  - now rewrite lookup_insert_ne, lookup_insert_eq by discriminate.
  - now rewrite lookup_insert_eq.
Qed.

(** X11: with its five transfers completing, get-and-clear-alerts stores bits
    8-13 of STATUS as they were before the clear and leaves those bits and
    bit 5 of CONFIG cleared; a second call whose read completes then
    reports no alert. *)
Theorem max17048_get_alerts_drains w l data0 :
  is_u16 (reg_val w STATUS) -> is_u16 (reg_val w CONFIG) ->
  outcome 0 w = true -> outcome 1 w = true -> outcome 2 w = true ->
  outcome 3 w = true -> outcome 4 w = true ->
  exists w',
    max17048_get_alerts (Some l) data0 w = (true, w')
    /\ mem w' !! l = Some (Z.land (Z.shiftr (reg_val w STATUS) 8) 0x3F)
    /\ reg_val w' STATUS = Z.land (reg_val w STATUS) 0xC0FF
    /\ reg_val w' CONFIG = Z.land (reg_val w CONFIG) 0xFFDF
    /\ (outcome 5 w = true ->
        forall l' data1,
          mem (snd (max17048_get_alerts (Some l') data1 w')) !! l' = Some 0).
Proof.
  intros Hst Hcf H0 H1 H2 H3 H4.
  set (w1 := World (dev w) (tl (script w))
                   (journal w ++ [Rd MAX_ADDR STATUS true]) (mem w)).
  assert (outcome 0 w1 = true /\ outcome 1 w1 = true
          /\ outcome 2 w1 = true /\ outcome 3 w1 = true) as (G0 & G1 & G2 & G3).
  { subst w1. now rewrite !(outcome_after_one _ _ _ _ _ w) by reflexivity. }
  destruct (max17048_clear_alerts_ok w1 Hst Hcf G0 G1 G2 G3)
    as (_ & Hdev & Hscript & _).
  change (reg_val w1 STATUS) with (reg_val w STATUS) in Hdev.
  change (reg_val w1 CONFIG) with (reg_val w CONFIG) in Hdev.
  change (dev w1) with (dev w) in Hdev.
  set (w2 := snd (max17048_clear_alerts w1)) in *.
  assert (max17048_get_alerts (Some l) data0 w
          = (true,
             World (dev w2) (script w2) (journal w2)
               (<[l := Z.land (Z.shiftr (reg_val w STATUS) 8) 0x3F]> (mem w2))))
    as Hrun.
  { rewrite max17048_get_alerts_run, read_reg_run, H0. cbn [fst snd].
    now rewrite alert_mask_field, SWAP16_involutive. }
  rewrite Hrun. eexists. split; [reflexivity |].
  destruct (cleared_regs _ _ _ _ Hdev) as [Hs Hc].
  cbn [mem]. split; [apply lookup_insert_eq |].
  split; [apply Hs | split; [apply Hc |]].
  intros H5 l' data1. rewrite max17048_get_alerts_mask.
  - rewrite (Hs (script w2) (journal w2)).
    rewrite Z.shiftr_land, <- Z.land_assoc.
    change (Z.land (Z.shiftr 0xC0FF 8) 0x3F) with 0. now rewrite Z.land_0_r.
  - rewrite (Hs (script w2) (journal w2)).
    apply land_u16_r. unfold is_u16. lia.
  - unfold outcome. cbn [script]. rewrite Hscript. subst w1. cbn [script].
    rewrite !nth_tl. exact H5.
Qed.

Lemma max17048_get_alerts_drains_witness :
  let w := bench [(STATUS, 0x6A00); (CONFIG, 0x9734)] [] in
  is_u16 (reg_val w STATUS) /\ is_u16 (reg_val w CONFIG)
  /\ exists w',
      max17048_get_alerts (Some 0%nat) 0 w = (true, w')
      /\ mem w' !! 0%nat = Some (Z.land (Z.shiftr (reg_val w STATUS) 8) 0x3F)
      /\ reg_val w' STATUS = Z.land (reg_val w STATUS) 0xC0FF
      /\ reg_val w' CONFIG = Z.land (reg_val w CONFIG) 0xFFDF
      /\ mem (snd (max17048_get_alerts (Some 1%nat) 0 w')) !! 1%nat = Some 0.
Proof.
  intros w.
  assert (is_u16 (reg_val w STATUS)) as Hst by (vm_compute; split; congruence).
  assert (is_u16 (reg_val w CONFIG)) as Hcf by (vm_compute; split; congruence).
  split; [exact Hst | split; [exact Hcf |]].
  destruct (max17048_get_alerts_drains w 0%nat 0 Hst Hcf
              eq_refl eq_refl eq_refl eq_refl eq_refl)
    as (w' & Hrun & Hmask & Hs & Hc & Hagain).
  exists w'. split; [exact Hrun | split; [exact Hmask | split; [exact Hs |]]].
  split; [exact Hc | apply Hagain; reflexivity].
Defined.

(** X12: when the read of STATUS fails, get-and-clear-alerts attempts no clear:
    the failed read is its only transfer and the register file is as it
    was, so no alert is lost; the caller's cell receives the 6-bit field of
    whatever the local [data] held. *)
Theorem max17048_get_alerts_read_fails w l data0 :
  outcome 0 w = false ->
  max17048_get_alerts (Some l) data0 w
  = (true,
     World (dev w) (tl (script w)) (journal w ++ [Rd MAX_ADDR STATUS false])
       (<[l := Z.land (Z.shiftr data0 8) 0x3F]> (mem w))).
Proof.
  intros H0. rewrite max17048_get_alerts_run, read_reg_run, H0.
  cbn [fst snd dev script journal mem]. now rewrite alert_mask_field.
Qed.

Lemma max17048_get_alerts_read_fails_witness :
  let w := bench [(STATUS, 0x0100)] [false] in
  outcome 0 w = false
  /\ max17048_get_alerts (Some 0%nat) 0x2A00 w
     = (true,
        World (dev w) (tl (script w)) (journal w ++ [Rd MAX_ADDR STATUS false])
          (<[0%nat := Z.land (Z.shiftr 0x2A00 8) 0x3F]> (mem w))).
Proof.
  intros w.
  assert (outcome 0 w = false) as H0 by reflexivity.
  split; [exact H0 | exact (max17048_get_alerts_read_fails w 0%nat 0x2A00 H0)].
Defined.

(** ** Presence check and state of charge, error paths *)

Lemma max17048_is_present_world w :
  snd (max17048_is_present w)
  = World (dev w) (tl (script w))
          (journal w ++ [Rd MAX_ADDR VERSION (outcome 0 w)]) (mem w).
Proof.
  unfold max17048_is_present, bind. rewrite read_reg_run.
  now destruct (outcome 0 w).
Qed.

(** X13: with the read completing, the presence check answers true exactly for
    the sixteen version values 0x0010..0x001F; whatever the bus does, it
    writes neither the gauge's registers nor the caller's memory. *)
Theorem max17048_is_present_versions w v :
  is_u16 v -> reg_val w VERSION = v ->
  (outcome 0 w = true ->
   (fst (max17048_is_present w) = true <-> 0x0010 <= v <= 0x001F))
  /\ dev (snd (max17048_is_present w)) = dev w
  /\ mem (snd (max17048_is_present w)) = mem w.
Proof.
  intros Hv Hreg. subst v. split.
  - intros H0. rewrite max17048_is_present_run, H0 by exact Hv. cbn [andb].
    rewrite Z.eqb_eq, version_mask_upper12 by exact Hv.
    rewrite Z.shiftr_div_pow2 by lia. change (2 ^ 4) with 16.
    unfold is_u16 in Hv. split; intros; Z.div_mod_to_equations; lia.
  - now rewrite max17048_is_present_world.
Qed.

Lemma max17048_is_present_versions_witness :
  let w := bench [(VERSION, 0x001F)] [] in
  is_u16 0x001F /\ reg_val w VERSION = 0x001F
  /\ fst (max17048_is_present w) = true
  /\ dev (snd (max17048_is_present w)) = dev w.
Proof.
  intros w.
  assert (is_u16 0x001F) as Hv by (unfold is_u16; lia).
  assert (reg_val w VERSION = 0x001F) as Hreg by reflexivity.
  destruct (max17048_is_present_versions w 0x001F Hv Hreg) as (Hiff & Hdev & _).
  split; [exact Hv | split; [exact Hreg | split; [| exact Hdev]]].
  apply Hiff; [reflexivity | lia].
Defined.

(** X14: a state-of-charge read that fails returns false after that one
    transfer, with the caller's cell and the gauge's registers as they
    were. *)
Theorem max17048_get_soc_read_fails w l :
  outcome 0 w = false ->
  max17048_get_soc (Some l) w
  = (false,
     World (dev w) (tl (script w)) (journal w ++ [Rd MAX_ADDR SOC false])
           (mem w)).
Proof.
  intros H0. unfold max17048_get_soc, bind. now rewrite read_reg_run, H0.
Qed.

Lemma max17048_get_soc_read_fails_witness :
  let w := bench [(SOC, 0x5A00)] [false] in
  outcome 0 w = false
  /\ max17048_get_soc (Some 0%nat) w
     = (false,
        World (dev w) (tl (script w)) (journal w ++ [Rd MAX_ADDR SOC false])
              (mem w)).
Proof.
  intros w.
  assert (outcome 0 w = false) as H0 by reflexivity.
  split; [exact H0 | exact (max17048_get_soc_read_fails w 0%nat H0)].
Defined.

(** ** The register file stays 16 bits wide *)










(** ** What goes over the bus *)








